(** * PoStep256 stepper driver (postep256.py): shallow embedding and properties

    The driver talks to the controller over I2C through the [smbus] binding.
    The embedding keeps the shape of the Python class:

    - Python integers are [Z]; [>>] and [&] are [Z.shiftr] and [Z.land];
    - Python floats are the binary64 primitive floats of the kernel, so that
      [int(123 * value)] is computed exactly as CPython computes it;
    - the bus is an explicit collaborator: every call of
      [write_i2c_block_data] / [read_i2c_block_data] is appended to a trace,
      and its outcome is given by a [Bus] oracle that may depend on the whole
      history of earlier calls;
    - exceptions are explicit ([Raise]), with [try ... except] written out.

    Console output ([print], [logging]) is not part of the model. *)

From Stdlib Require Import ZArith List Bool Lia.
From Stdlib.Strings Require Import Byte.
From Stdlib Require Import Floats.
From Equations Require Import Equations.
Import ListNotations.

Set Warnings "-inexact-float".
Local Open Scope Z_scope.

(* ------------------------------------------------------------------------- *)
(** ** Fragments of the Python runtime used by the driver                     *)
(* ------------------------------------------------------------------------- *)

Inductive exn : Set :=
| ValueError | TypeError | IndexError | AttributeError
| OverflowError | StructError | OSError.

Inductive outcome (A : Type) : Type :=
| Ret (a : A)
| Raise (e : exn).
Arguments Ret {A} a.
Arguments Raise {A} e.

(** [int(f)] on a float: truncation toward zero; [nan] and the infinities
    raise. *)
Definition py_int (f : float) : outcome Z :=
  match Prim2SF f with
  | S754_zero _ => Ret 0
  | S754_infinity _ => Raise OverflowError
  | S754_nan => Raise ValueError
  | S754_finite s m e =>
      let a := Z.shiftl (Z.pos m) e in
      Ret (if s then - a else a)
  end.

(** Conversion of an integer operand to float in mixed arithmetic; exact on
    the magnitudes the driver produces (below 2^53). *)
Definition py_float (z : Z) : float :=
  if z <? 0 then (- of_uint63 (Uint63.of_Z (- z)))%float
  else of_uint63 (Uint63.of_Z z).

(** What [read_i2c_block_data] hands back: a list of unsigned bytes, seen by
    Python as small integers. *)
Definition int_of_byte (b : byte) : Z := Z.of_N (Byte.to_N b).

(** [struct.unpack] with a native signed format of [width] bytes on a
    little-endian host: the length must match. *)
Fixpoint le_unsigned (bs : list byte) : Z :=
  match bs with
  | [] => 0
  | b :: rest => int_of_byte b + 256 * le_unsigned rest
  end.

Definition struct_unpack_signed (width : nat) (bs : list byte) : outcome Z :=
  if Nat.eqb (length bs) width then
    let u := le_unsigned bs in
    let half := 2 ^ (8 * Z.of_nat width - 1) in
    Ret (if u <? half then u else u - 2 * half)
  else Raise StructError.

(* ------------------------------------------------------------------------- *)
(** ** The bus collaborator and the effect monad                              *)
(* ------------------------------------------------------------------------- *)

(** One entry per call that reaches the binding, in call order. *)
Inductive event : Set :=
| EvWrite (address register : Z) (payload : list Z)
| EvRead (address register length : Z).

(** Behaviour of the device and wire: does a block write go through, and what
    does a block read return ([None]: the binding raises). *)
Record Bus : Type := {
  bus_write : list event -> Z -> Z -> list Z -> bool;
  bus_read : list event -> Z -> Z -> Z -> option (list byte)
}.

(** The object state: [i2c_bus] is [None] after a failed construction;
    [i2c_address] is [None] while the attribute was never assigned. *)
Record PoStep256 : Type := {
  i2c_bus : option Bus;
  i2c_address : option Z
}.

Definition M (A : Type) : Type := list event -> outcome A * list event.

Definition ret {A} (a : A) : M A := fun tr => (Ret a, tr).
Definition raise {A} (e : exn) : M A := fun tr => (Raise e, tr).
Definition bind {A B} (m : M A) (k : A -> M B) : M B :=
  fun tr =>
    match m tr with
    | (Ret a, tr') => k a tr'
    | (Raise e, tr') => (Raise e, tr')
    end.
Definition try_except {A} (body : M A) (handler : exn -> M A) : M A :=
  fun tr =>
    match body tr with
    | (Ret a, tr') => (Ret a, tr')
    | (Raise e, tr') => handler e tr'
    end.
Definition lift {A} (o : outcome A) : M A := fun tr => (o, tr).

Declare Scope py_scope.
Delimit Scope py_scope with py.
Notation "x <- m ;; k" := (bind m (fun x => k))
  (at level 100, m at next level, right associativity) : py_scope.
Notation "m ;;; k" := (bind m (fun _ => k))
  (at level 100, right associativity) : py_scope.
Local Open Scope py_scope.

(* selected i2c channel on rpi *)
Definition I2C_CHANNEL : Z := 1.

(* variables upper limits *)
Definition MAX_TEMP : Z := 120.
Definition MAX_CURRENT : float := 6.0%float.
Definition MAX_SPEED : Z := 60000.
Definition MAX_ACCELERATION : Z := 50000.
Definition MAX_BUFFER_LENGTH : Z := 5.

(* driver states *)
Definition DRIVER_RUN : Z := 0xda.
Definition DRIVER_SLEEP : Z := 0x0f.

(* driver modes *)
Definition MODE_DEFAULT : Z := 0x01.
Definition MODE_POSITION_CONT : Z := 0x04.
Definition MODE_BINX_BUTTONS : Z := 0x05.
Definition MODE_AUTO : Z := 0x06.

(** [self.i2c_bus.write_i2c_block_data(self.i2c_address, register, buffer)]:
    the attribute lookups fail on a dead session before anything is sent. *)
Definition write_i2c_block_data (self : PoStep256) (register : Z)
    (buffer : list Z) : M unit :=
  fun tr =>
    match i2c_bus self, i2c_address self with
    | Some bus, Some addr =>
        let tr' := tr ++ [EvWrite addr register buffer] in
        if bus_write bus tr addr register buffer then (Ret tt, tr')
        else (Raise OSError, tr')
    | _, _ => (Raise AttributeError, tr)
    end.

Definition read_i2c_block_data (self : PoStep256) (register length : Z)
    : M (list byte) :=
  fun tr =>
    match i2c_bus self, i2c_address self with
    | Some bus, Some addr =>
        let tr' := tr ++ [EvRead addr register length] in
        match bus_read bus tr addr register length with
        | Some data => (Ret data, tr')
        | None => (Raise OSError, tr')
        end
    | _, _ => (Raise AttributeError, tr)
    end.

(** The [buffer] argument of [write_data] is either a list or a bare
    number. *)
Inductive pyarg : Set :=
| ArgList (l : list Z)
| ArgInt (z : Z).

(* ------------------------------------------------------------------------- *)
(** ** class PoStep256                                                        *)
(* ------------------------------------------------------------------------- *)

Definition write_data (self : PoStep256) (register : Z) (buffer : pyarg)
    : M bool :=
  try_except
    (if (register <? 0x01) || (register >? 0x60) then ret false
     else
       let buffer := match buffer with ArgList l => l | ArgInt z => [z] end in
       write_i2c_block_data self register buffer ;;;
       ret true)
    (fun _ => ret false).

Definition read_data (self : PoStep256) (register length : Z)
    : M (option (list byte)) :=
  try_except
    (if (register <? 0x01) || (register >? 0x60) then ret None
     else if (length <? 1) || (length >? MAX_BUFFER_LENGTH) then ret None
     else
       buffer <- (if negb (length =? 0)
                  then read_i2c_block_data self register length
                  else read_i2c_block_data self register 32) ;;
       ret (Some buffer))
    (fun _ => ret None).

Definition convert_to_byte_buffer (value : Z) : list Z :=
  if value <=? 255 then [value]
  else if value <=? 65535 then
    let msb := Z.shiftr value 8 in
    let lsb := Z.land value 0xff in
    [msb; lsb]
  else if value <=? 4294967295 then
    let msb := Z.shiftr value (8 * 3) in
    let remain1 := Z.land value 0xffffff in
    let mid1 := Z.shiftr remain1 (8 * 2) in
    let remain2 := Z.land value 0xffff in
    let mid2 := Z.shiftr remain2 8 in
    let lsb := Z.land value 0xff in
    [msb; mid1; mid2; lsb]
  else [].

Definition read_value (self : PoStep256) (register : Z) : M (option Z) :=
  write_res <- write_data self register (ArgList []) ;;
  if negb write_res then ret None
  else
    buffer <- read_data self register 1 ;;
    match buffer with
    | Some [] => raise IndexError
    | Some (b :: _) => ret (Some (int_of_byte b))
    | None => ret None
    end.

Definition loopback_read (self : PoStep256) : M bool :=
  try_except
    (let buff := [0x91; 0x92; 0x93; 0x94] in
     write_res <- write_data self 0x01 (ArgList buff) ;;
     if negb write_res then ret false
     else
       returned <- read_data self 0x01 (Z.of_nat (length buff) + 1) ;;
       match returned with
       | None => raise TypeError
       | Some returned =>
           let returned_buff := map int_of_byte (tl returned) in
           if list_eq_dec Z.eq_dec returned_buff buff then ret true
           else ret false
       end)
    (fun _ => ret false).

Definition set_run_sleep_mode (self : PoStep256) (value : Z) : M bool :=
  if value =? DRIVER_SLEEP then write_data self 0x03 (ArgInt value)
  else if value =? DRIVER_RUN then write_data self 0x03 (ArgInt value)
  else ret false.

Definition set_address (self : PoStep256) (cur new : Z) : M bool :=
  if cur =? new then ret true
  else if (cur <? 0x01) || (cur >? 0x7f) then ret false
  else if (new <? 0x01) || (new >? 0x7f) then ret false
  else write_data self 0x04 (ArgList [cur; new]).

Definition set_zero (self : PoStep256) : M bool :=
  write_data self 0x5e (ArgList []).

Definition stop (self : PoStep256) : M bool :=
  write_data self 0x5f (ArgList []).

Definition system_reset (self : PoStep256) : M bool :=
  write_data self 0x60 (ArgList []).

Definition set_driver_mode (self : PoStep256) (value : Z) : M bool :=
  stop self ;;;
  set_zero self ;;;
  if (value =? MODE_AUTO) || (value =? MODE_DEFAULT)
  then write_data self 0x05 (ArgInt value)
  else ret false.

Definition set_pwm_motors (self : PoStep256)
    (motor1_freq motor2_freq motor1_duty_ccw motor1_duty_acw
     motor2_duty_ccw motor2_duty_acw : Z) : M bool :=
  write_data self 0x06
    (ArgList [motor1_freq; motor2_freq; motor1_duty_ccw; motor1_duty_acw;
              motor2_duty_ccw; motor2_duty_acw]).

Definition read_hw_fw_info (self : PoStep256) : M (option (list byte)) :=
  write_res <- write_data self 0x0a (ArgList []) ;;
  if negb write_res then ret None
  else
    buffer <- read_data self 0x0a 5 ;;
    ret buffer.

(** [struct.unpack(fmt, bytes(buffer))[0]]: [bytes(None)] is a [TypeError]. *)
Definition unpack_reply (width : nat) (buffer : option (list byte)) : M Z :=
  match buffer with
  | None => raise TypeError
  | Some bs => lift (struct_unpack_signed width bs)
  end.

Definition read_voltage (self : PoStep256) : M (option float) :=
  write_res <- write_data self 0x10 (ArgList []) ;;
  if negb write_res then ret None
  else
    buffer <- read_data self 0x10 2 ;;
    tuple_buff <- unpack_reply 2 buffer ;;
    let calculated := (py_float tuple_buff * 0.072)%float in
    ret (Some calculated).

Definition read_temperature (self : PoStep256) : M (option float) :=
  write_res <- write_data self 0x11 (ArgList []) ;;
  if negb write_res then ret None
  else
    buffer <- read_data self 0x11 2 ;;
    tuple_buff <- unpack_reply 2 buffer ;;
    let calculated := (py_float tuple_buff * 0.125)%float in
    ret (Some calculated).

Definition read_pin_statuses (self : PoStep256) : M (option Z) :=
  read_value self 0x12.

Definition read_driver_status (self : PoStep256) : M (option Z) :=
  read_value self 0x13.

Definition read_driver_mode (self : PoStep256) : M (option Z) :=
  read_value self 0x14.

(** [buffer[i]] on the reply of [read_data]. *)
Definition subscript (buffer : option (list byte)) (i : nat) : M Z :=
  match buffer with
  | None => raise TypeError
  | Some bs =>
      match nth_error bs i with
      | Some b => ret (int_of_byte b)
      | None => raise IndexError
      end
  end.

Definition read_current (self : PoStep256) (register : Z) : M (option float) :=
  write_res <- write_data self register (ArgList []) ;;
  if negb write_res then ret None
  else
    buffer <- read_data self register 2 ;;
    b0 <- subscript buffer 0 ;;
    b1 <- subscript buffer 1 ;;
    let calculated := (0.065 * py_float b0 / Z.ldexp 1 b1)%float in
    ret (Some calculated).

Definition read_current_full_scale (self : PoStep256) : M (option float) :=
  read_current self 0x20.

Definition read_current_idle (self : PoStep256) : M (option float) :=
  read_current self 0x21.

Definition read_current_overheat (self : PoStep256) : M (option float) :=
  read_current self 0x22.

Definition read_step_mode (self : PoStep256) : M Z :=
  buffer <- read_value self 0x23 ;;
  match buffer with
  | None => raise TypeError
  | Some b => ret (Z.land b 0x0f)
  end.

Definition read_temperature_limit (self : PoStep256) : M (option Z) :=
  read_value self 0x24.

Definition read_faults (self : PoStep256) : M (option Z) :=
  read_value self 0x25.

(** The loop of [set_current]:
    [while tq > 255: ai -= 1; tq = tq >> 1]. *)
Equations? halve_until_byte (tq ai : Z) : Z * Z by wf (Z.to_nat tq) lt :=
  halve_until_byte tq ai with Z_gt_dec tq 255 => {
    | left _ := halve_until_byte (Z.shiftr tq 1) (ai - 1);
    | right _ := (tq, ai) }.
Proof.
  rewrite Z.shiftr_div_pow2 by lia.
  change (2 ^ 1) with 2.
  apply Z2Nat.inj_lt; try lia.
  - apply Z.div_pos; lia.
  - apply Z.div_lt; lia.
Qed.

Definition set_current (self : PoStep256) (register : Z) (value : float)
    : M bool :=
  tq <- lift (py_int (123 * value)%float) ;;
  let ai := 3 in
  let '(tq, ai) := halve_until_byte tq ai in
  write_data self register (ArgList [tq; ai]).

Definition set_current_full_scale (self : PoStep256) (value : float)
    : M bool :=
  if (value <? 0.0)%float || (MAX_CURRENT <? value)%float then ret false
  else set_current self 0x30 value.

Definition set_current_idle (self : PoStep256) (value : float) : M bool :=
  if (value <? 0.0)%float || (MAX_CURRENT <? value)%float then ret false
  else set_current self 0x31 value.

Definition set_current_overheat (self : PoStep256) (value : float) : M bool :=
  if (value <? 0.0)%float || (MAX_CURRENT <? value)%float then ret false
  else set_current self 0x32 value.

Definition set_step_mode (self : PoStep256) (value : Z) : M bool :=
  if (value <? 0) || (value >? 8) then ret false
  else write_data self 0x33 (ArgInt value).

Definition set_temperature_limit (self : PoStep256) (value : Z) : M bool :=
  if (value <? 0) || (value >? MAX_TEMP) then ret false
  else write_data self 0x34 (ArgInt value).

Definition reset_faults (self : PoStep256) : M bool :=
  write_data self 0x35 (ArgList []).

Definition write_settings_to_eeprom (self : PoStep256) : M bool :=
  write_data self 0x3f (ArgList []).

(* --------- commands related to the internal position controller --------- *)

Definition read_position (self : PoStep256) : M (option Z) :=
  write_res <- write_data self 0x40 (ArgList []) ;;
  if negb write_res then ret None
  else
    buffer <- read_data self 0x40 4 ;;
    calculated <- unpack_reply 4 buffer ;;
    ret (Some calculated).

Definition read_speed (self : PoStep256) (register : Z) : M (option Z) :=
  write_res <- write_data self register (ArgList []) ;;
  if negb write_res then ret None
  else
    buffer <- read_data self register 2 ;;
    calculated <- unpack_reply 2 buffer ;;
    ret (Some calculated).

Definition read_max_speed (self : PoStep256) := read_speed self 0x41.
Definition read_acceleration (self : PoStep256) := read_speed self 0x42.
Definition read_deceleration (self : PoStep256) := read_speed self 0x43.
Definition read_current_speed (self : PoStep256) := read_speed self 0x44.
Definition read_requested_speed (self : PoStep256) := read_speed self 0x45.

Definition read_auto_run_invert_direction_status (self : PoStep256)
    : M (option Z) :=
  read_value self 0x46.

(** [cur_mode != MODE] where [cur_mode] may be [None]. *)
Definition mode_differs (cur_mode : option Z) (mode : Z) : bool :=
  match cur_mode with
  | Some m => negb (m =? mode)
  | None => true
  end.

(** The loop of [set_position]:
    [while len(buffer) < 4: buffer.append(0)]. *)
Equations? pad_to_four (buffer : list Z) : list Z
    by wf (4 - length buffer)%nat lt :=
  pad_to_four buffer with lt_dec (length buffer) 4 => {
    | left _ := pad_to_four (buffer ++ [0]);
    | right _ := buffer }.
Proof.
  clear pad_to_four.
  destruct buffer as [|? [|? [|? [|? ?]]]]; simpl in *; lia.
Qed.

Definition set_position (self : PoStep256) (value : Z) : M bool :=
  cur_mode <- read_driver_mode self ;;
  if mode_differs cur_mode MODE_POSITION_CONT
     && mode_differs cur_mode MODE_BINX_BUTTONS
  then ret false
  else
    let buffer := convert_to_byte_buffer value in
    let buffer := rev buffer in
    let buffer := pad_to_four buffer in
    write_data self 0x50 (ArgList buffer).

Definition set_speed (self : PoStep256) (register value : Z) : M bool :=
  let buff := convert_to_byte_buffer value in
  match buff with
  | [] => ret false
  | [_] =>
      let buff := buff ++ [0] in
      let new_buff := buff in
      write_data self register (ArgList new_buff)
  | b0 :: b1 :: _ =>
      let new_buff := [b1; b0] in
      write_data self register (ArgList new_buff)
  end.

Definition set_max_speed (self : PoStep256) (value : Z) : M bool :=
  if (value <? 0) || (value >? MAX_SPEED) then ret false
  else set_speed self 0x51 value.

Definition set_acceleration (self : PoStep256) (value : Z) : M bool :=
  if (value <? 0) || (value >? MAX_ACCELERATION) then ret false
  else set_speed self 0x52 value.

Definition set_deceleration (self : PoStep256) (value : Z) : M bool :=
  if (value <? 0) || (value >? MAX_ACCELERATION) then ret false
  else set_speed self 0x53 value.

Definition set_requested_speed (self : PoStep256) (value : Z) : M bool :=
  cur_mode <- read_driver_mode self ;;
  if mode_differs cur_mode MODE_AUTO then ret false
  else if (value <? 0) || (value >? MAX_SPEED) then ret false
  else set_speed self 0x54 value.

Definition set_invert_direction (self : PoStep256) (value : Z) : M bool :=
  cur_mode <- read_driver_mode self ;;
  if mode_differs cur_mode MODE_AUTO then ret false
  else if (value <? 0) || (value >? 1) then ret false
  else
    let buff := convert_to_byte_buffer value in
    match buff with
    | [] => ret false
    | _ => write_data self 0x55 (ArgList buff)
    end.

(** The constructor. [smbus_SMBus] is the binding's bus opener ([None]: it
    raises, before [i2c_address] is assigned). [loopback_read] failing raises
    [ValueError] inside the [try]; both handlers drop the bus handle and the
    constructor returns normally. *)
Definition __init__ (smbus_SMBus : Z -> option Bus) (address : Z)
    : M PoStep256 :=
  try_except
    (match smbus_SMBus I2C_CHANNEL with
     | None => raise OSError
     | Some bus =>
         let self := {| i2c_bus := Some bus; i2c_address := Some address |} in
         ok <- loopback_read self ;;
         if negb ok then raise ValueError else ret self
     end)
    (fun e =>
       match e with
       | ValueError => ret {| i2c_bus := None; i2c_address := Some address |}
       | _ => ret {| i2c_bus := None; i2c_address := None |}
       end).

(** Driver destructor. *)
Definition __del__ (self : PoStep256) : PoStep256 :=
  {| i2c_bus := None; i2c_address := i2c_address self |}.

(* ------------------------------------------------------------------------- *)
(** ** The operations of a session, as one type                               *)
(* ------------------------------------------------------------------------- *)

(** Python values returned by the methods. *)
Inductive pyval : Type :=
| VBool (b : bool)
| VNone
| VInt (z : Z)
| VFloat (f : float)
| VList (l : list Z).

Definition of_bool (m : M bool) : M pyval := b <- m ;; ret (VBool b).
Definition of_int (m : M Z) : M pyval := z <- m ;; ret (VInt z).
Definition of_opt_int (m : M (option Z)) : M pyval :=
  o <- m ;; ret (match o with Some z => VInt z | None => VNone end).
Definition of_opt_float (m : M (option float)) : M pyval :=
  o <- m ;; ret (match o with Some f => VFloat f | None => VNone end).
Definition of_opt_bytes (m : M (option (list byte))) : M pyval :=
  o <- m ;;
  ret (match o with Some l => VList (map int_of_byte l) | None => VNone end).

(** Every method of the class that takes part in device traffic, the
    register-level helpers included ([convert_to_byte_buffer] is a pure
    function and is not listed). *)
Inductive operation : Type :=
| Op_write_data (register : Z) (buffer : pyarg)
| Op_read_data (register length : Z)
| Op_read_value (register : Z)
| Op_loopback_read
| Op_set_run_sleep_mode (value : Z)
| Op_set_address (cur new : Z)
| Op_set_driver_mode (value : Z)
| Op_set_pwm_motors (f1 f2 d1c d1a d2c d2a : Z)
| Op_read_hw_fw_info
| Op_read_voltage
| Op_read_temperature
| Op_read_pin_statuses
| Op_read_driver_status
| Op_read_driver_mode
| Op_read_current_full_scale
| Op_read_current_idle
| Op_read_current_overheat
| Op_read_step_mode
| Op_read_temperature_limit
| Op_read_faults
| Op_set_current_full_scale (value : float)
| Op_set_current_idle (value : float)
| Op_set_current_overheat (value : float)
| Op_set_step_mode (value : Z)
| Op_set_temperature_limit (value : Z)
| Op_reset_faults
| Op_write_settings_to_eeprom
| Op_read_position
| Op_read_max_speed
| Op_read_acceleration
| Op_read_deceleration
| Op_read_current_speed
| Op_read_requested_speed
| Op_read_auto_run_invert_direction_status
| Op_set_position (value : Z)
| Op_set_max_speed (value : Z)
| Op_set_acceleration (value : Z)
| Op_set_deceleration (value : Z)
| Op_set_requested_speed (value : Z)
| Op_set_invert_direction (value : Z)
| Op_set_zero
| Op_stop
| Op_system_reset
| Op_read_current (register : Z)
| Op_set_current (register : Z) (value : float)
| Op_read_speed (register : Z)
| Op_set_speed (register value : Z).

Definition call (self : PoStep256) (op : operation) : M pyval :=
  match op with
  | Op_write_data r b => of_bool (write_data self r b)
  | Op_read_data r n => of_opt_bytes (read_data self r n)
  | Op_read_value r => of_opt_int (read_value self r)
  | Op_loopback_read => of_bool (loopback_read self)
  | Op_set_run_sleep_mode v => of_bool (set_run_sleep_mode self v)
  | Op_set_address c n => of_bool (set_address self c n)
  | Op_set_driver_mode v => of_bool (set_driver_mode self v)
  | Op_set_pwm_motors a b c d e f =>
      of_bool (set_pwm_motors self a b c d e f)
  | Op_read_hw_fw_info => of_opt_bytes (read_hw_fw_info self)
  | Op_read_voltage => of_opt_float (read_voltage self)
  | Op_read_temperature => of_opt_float (read_temperature self)
  | Op_read_pin_statuses => of_opt_int (read_pin_statuses self)
  | Op_read_driver_status => of_opt_int (read_driver_status self)
  | Op_read_driver_mode => of_opt_int (read_driver_mode self)
  | Op_read_current_full_scale => of_opt_float (read_current_full_scale self)
  | Op_read_current_idle => of_opt_float (read_current_idle self)
  | Op_read_current_overheat => of_opt_float (read_current_overheat self)
  | Op_read_step_mode => of_int (read_step_mode self)
  | Op_read_temperature_limit => of_opt_int (read_temperature_limit self)
  | Op_read_faults => of_opt_int (read_faults self)
  | Op_set_current_full_scale v => of_bool (set_current_full_scale self v)
  | Op_set_current_idle v => of_bool (set_current_idle self v)
  | Op_set_current_overheat v => of_bool (set_current_overheat self v)
  | Op_set_step_mode v => of_bool (set_step_mode self v)
  | Op_set_temperature_limit v => of_bool (set_temperature_limit self v)
  | Op_reset_faults => of_bool (reset_faults self)
  | Op_write_settings_to_eeprom => of_bool (write_settings_to_eeprom self)
  | Op_read_position => of_opt_int (read_position self)
  | Op_read_max_speed => of_opt_int (read_max_speed self)
  | Op_read_acceleration => of_opt_int (read_acceleration self)
  | Op_read_deceleration => of_opt_int (read_deceleration self)
  | Op_read_current_speed => of_opt_int (read_current_speed self)
  | Op_read_requested_speed => of_opt_int (read_requested_speed self)
  | Op_read_auto_run_invert_direction_status =>
      of_opt_int (read_auto_run_invert_direction_status self)
  | Op_set_position v => of_bool (set_position self v)
  | Op_set_max_speed v => of_bool (set_max_speed self v)
  | Op_set_acceleration v => of_bool (set_acceleration self v)
  | Op_set_deceleration v => of_bool (set_deceleration self v)
  | Op_set_requested_speed v => of_bool (set_requested_speed self v)
  | Op_set_invert_direction v => of_bool (set_invert_direction self v)
  | Op_set_zero => of_bool (set_zero self)
  | Op_stop => of_bool (stop self)
  | Op_system_reset => of_bool (system_reset self)
  | Op_read_current r => of_opt_float (read_current self r)
  | Op_set_current r v => of_bool (set_current self r v)
  | Op_read_speed r => of_opt_int (read_speed self r)
  | Op_set_speed r v => of_bool (set_speed self r v)
  end.

(** The failure results of the class: [False] or [None]. *)
Definition is_failure (v : pyval) : bool :=
  match v with
  | VBool false | VNone => true
  | _ => false
  end.

(* ------------------------------------------------------------------------- *)
(** ** Reference definitions taken from the specification's wording           *)
(* ------------------------------------------------------------------------- *)

(** Decoding a big-endian byte sequence (most significant byte first). *)
Definition decode_big_endian (bs : list Z) : Z :=
  fold_left (fun acc b => acc * 256 + b) bs 0.

(** Rounding a float to the nearest integer, ties to even, as Python's
    [round] does; [None] where [round] raises. *)
Definition round_nearest (f : float) : option Z :=
  match Prim2SF f with
  | S754_zero _ => Some 0
  | S754_infinity _ | S754_nan => None
  | S754_finite s m e =>
      let a :=
        if 0 <=? e then Z.shiftl (Z.pos m) e
        else
          let q := Z.shiftr (Z.pos m) (- e) in
          let r := Z.land (Z.pos m) (Z.ones (- e)) in
          let half := Z.shiftl 1 (- e - 1) in
          if (half <? r) || ((r =? half) && Z.odd q) then q + 1 else q in
      Some (if s then - a else a)
  end.

(** The current encoding as the specification words it: the mantissa starts
    from [round(123 * amps)]. *)
Definition encode_current_rounded (amps : float) : option (Z * Z) :=
  match round_nearest (123 * amps)%float with
  | Some mantissa => Some (halve_until_byte mantissa 3)
  | None => None
  end.

(** Little-endian bytes of a 32-bit quantity. *)
Definition little_endian_4 (v : Z) : list Z :=
  [Z.land v 0xff; Z.land (Z.shiftr v 8) 0xff;
   Z.land (Z.shiftr v 16) 0xff; Z.land (Z.shiftr v 24) 0xff].

(** A session that still holds its bus handle, with the device address. *)
Definition functional (self : PoStep256) (bus : Bus) (addr : Z) : Prop :=
  i2c_bus self = Some bus /\ i2c_address self = Some addr.

Definition arg_list (buffer : pyarg) : list Z :=
  match buffer with ArgList l => l | ArgInt z => [z] end.

Definition PROBE : list Z := [0x91; 0x92; 0x93; 0x94].

(** Concrete collaborators used to exercise the statements. *)
Definition echo_bus (mode : byte) : Bus := {|
  bus_write := fun _ _ _ _ => true;
  bus_read := fun _ _ register length =>
    if register =? 0x01 then Some [x0a; x91; x92; x93; x94]
    else Some (repeat mode (Z.to_nat length)) |}.

(** A device that leaves [MODE_AUTO] after the first speed write it sees. *)
Definition leaving_auto_bus : Bus := {|
  bus_write := fun _ _ _ _ => true;
  bus_read := fun history _ _ _ =>
    if existsb (fun ev =>
                  match ev with
                  | EvWrite _ register _ => register =? 0x54
                  | EvRead _ _ _ => false
                  end) history
    then Some [x01] else Some [x06] |}.

(** A device that takes every write and answers no read. *)
Definition mute_bus : Bus := {|
  bus_write := fun _ _ _ _ => true;
  bus_read := fun _ _ _ _ => None |}.

Definition silent_bus : Bus := {|
  bus_write := fun _ _ _ _ => false;
  bus_read := fun _ _ _ _ => None |}.

Definition session_on (bus : Bus) : PoStep256 :=
  {| i2c_bus := Some bus; i2c_address := Some 0x0a |}.

Definition dead_session : PoStep256 :=
  {| i2c_bus := None; i2c_address := Some 0x0a |}.

(** Calls whose answer on a session without bus handle is not a failure
    result: the step-mode read, an address change between equal addresses,
    a current setter given a NaN, and the register-level [set_current] given
    a value whose product with 123 has no integer part (NaN, infinite). *)
Definition not_failing_fast (op : operation) : bool :=
  match op with
  | Op_read_step_mode => true
  | Op_set_address cur new => cur =? new
  | Op_set_current_full_scale v
  | Op_set_current_idle v
  | Op_set_current_overheat v => is_nan v
  | Op_set_current _ v =>
      match py_int (123 * v)%float with
      | Raise _ => true
      | Ret _ => false
      end
  | _ => false
  end.

(** The session as it stands inside the constructor when the self-test
    runs. *)
Definition under_construction (bus : Bus) (address : Z) : PoStep256 :=
  {| i2c_bus := Some bus; i2c_address := Some address |}.

(** The device answers the mode query made at history [tr] with [mode]:
    the register-select write to [0x14] goes through and the one-byte read
    starts with [mode]. *)
Definition reports_mode (bus : Bus) (addr : Z) (tr : list event) (mode : byte)
    : Prop :=
  bus_write bus tr addr 0x14 [] = true /\
  exists more,
    bus_read bus (tr ++ [EvWrite addr 0x14 []]) addr 0x14 1
      = Some (mode :: more).

(** The two entries a mode query leaves in the trace. *)
Definition mode_query (addr : Z) : list event :=
  [EvWrite addr 0x14 []; EvRead addr 0x14 1].

(** A bus call as the guards of [write_data] and [read_data] let it
    through: to the address of the session, on a register in [0x01..0x60],
    and for a read with a length in [1..5]. *)
Definition event_ok (self : PoStep256) (ev : event) : Prop :=
  match ev with
  | EvWrite a r _ => i2c_address self = Some a /\ 0x01 <= r <= 0x60
  | EvRead a r n =>
      i2c_address self = Some a /\ 0x01 <= r <= 0x60 /\
      1 <= n <= MAX_BUFFER_LENGTH
  end.

(** [m] only appends to the trace, at most [n] entries, all of them
    [event_ok]. *)
Definition appends_at_most (self : PoStep256) (n : nat) {A : Type} (m : M A)
    : Prop :=
  forall tr, exists suffix,
    snd (m tr) = tr ++ suffix /\
    (length suffix <= n)%nat /\
    Forall (event_ok self) suffix.

(** The commands that answer with a boolean only: the write-only setters
    and actions, the self-test, and the two block transfer methods. The
    reads that index or unpack a reply, the setters behind a mode query and
    the current setters are not among them. *)
Definition answers_without_raising (op : operation) : bool :=
  match op with
  | Op_write_data _ _ | Op_read_data _ _ | Op_loopback_read
  | Op_set_run_sleep_mode _ | Op_set_address _ _ | Op_set_driver_mode _
  | Op_set_pwm_motors _ _ _ _ _ _ | Op_read_hw_fw_info
  | Op_set_step_mode _ | Op_set_temperature_limit _
  | Op_reset_faults | Op_write_settings_to_eeprom
  | Op_set_max_speed _ | Op_set_acceleration _ | Op_set_deceleration _
  | Op_set_zero | Op_stop | Op_system_reset | Op_set_speed _ _ => true
  | _ => false
  end.

(** [m] comes back with a value from every history: it raises nowhere. *)
Definition always_returns {A : Type} (m : M A) : Prop :=
  forall tr, exists a, fst (m tr) = Ret a.

(** Decoding a reply as a signed little-endian integer of [bits] bits, from
    its unsigned value. *)
Definition as_signed (bits : Z) (u : Z) : Z :=
  if u <? 2 ^ (bits - 1) then u else u - 2 ^ bits.

(* ------------------------------------------------------------------------- *)
(** ** Transport layer facts                                                  *)
(* ------------------------------------------------------------------------- *)

Lemma write_data_live self bus addr register buffer tr :
  functional self bus addr ->
  0x01 <= register <= 0x60 ->
  write_data self register buffer tr =
    (Ret (bus_write bus tr addr register (arg_list buffer)),
     tr ++ [EvWrite addr register (arg_list buffer)]).
Proof.
  intros [Hb Ha] Hr.
  unfold write_data, try_except, bind, write_i2c_block_data, ret.
  replace ((register <? 1) || (register >? 96)) with false
    by (symmetry; apply orb_false_iff; split; lia).
  rewrite Hb, Ha. fold (arg_list buffer).
  now destruct (bus_write bus tr addr register (arg_list buffer)).
Qed.

Lemma write_data_dead self register buffer tr :
  i2c_bus self = None ->
  write_data self register buffer tr = (Ret false, tr).
Proof.
  intros Hb.
  unfold write_data, try_except, bind, write_i2c_block_data, ret.
  rewrite Hb.
  now destruct ((register <? 1) || (register >? 96)).
Qed.

Lemma read_data_live self bus addr register length tr :
  functional self bus addr ->
  0x01 <= register <= 0x60 ->
  1 <= length <= 5 ->
  read_data self register length tr =
    (Ret (bus_read bus tr addr register length),
     tr ++ [EvRead addr register length]).
Proof.
  intros [Hb Ha] Hr Hl.
  unfold read_data, try_except, bind, read_i2c_block_data, ret,
    MAX_BUFFER_LENGTH.
  replace ((register <? 1) || (register >? 96)) with false
    by (symmetry; apply orb_false_iff; split; lia).
  replace ((length <? 1) || (length >? 5)) with false
    by (symmetry; apply orb_false_iff; split; lia).
  replace (length =? 0) with false by (symmetry; apply Z.eqb_neq; lia).
  cbn [negb]. rewrite Hb, Ha.
  now destruct (bus_read bus tr addr register length).
Qed.

Lemma read_data_dead self register length tr :
  i2c_bus self = None ->
  read_data self register length tr = (Ret None, tr).
Proof.
  intros Hb.
  unfold read_data, try_except, bind, read_i2c_block_data, ret.
  rewrite Hb.
  destruct ((register <? 1) || (register >? 96)); [reflexivity|].
  destruct ((length <? 1) || (length >? MAX_BUFFER_LENGTH)); [reflexivity|].
  now destruct (negb (length =? 0)).
Qed.

Lemma read_value_dead self register tr :
  i2c_bus self = None ->
  read_value self register tr = (Ret None, tr).
Proof.
  intros Hb. unfold read_value, bind.
  now rewrite write_data_dead.
Qed.

(** The mode query on a live session: a register-select write, then a
    one-byte read when the write went through. *)
Lemma read_value_live self bus addr register tr :
  functional self bus addr ->
  0x01 <= register <= 0x60 ->
  read_value self register tr =
    if bus_write bus tr addr register [] then
      let tr1 := tr ++ [EvWrite addr register []] in
      (match bus_read bus tr1 addr register 1 with
       | Some [] => Raise IndexError
       | Some (b :: _) => Ret (Some (int_of_byte b))
       | None => Ret None
       end, tr1 ++ [EvRead addr register 1])
    else (Ret None, tr ++ [EvWrite addr register []]).
Proof.
  intros Hf Hr. unfold read_value, bind.
  rewrite (write_data_live _ _ _ _ _ _ Hf Hr). cbn [arg_list].
  destruct (bus_write bus tr addr register []); cbn [negb]; [|reflexivity].
  rewrite (read_data_live _ _ _ _ _ _ Hf Hr) by lia.
  destruct (bus_read bus _ addr register 1) as [[|b l]|]; reflexivity.
Qed.

(* ------------------------------------------------------------------------- *)
(** ** Byte-buffer codec                                                      *)
(* ------------------------------------------------------------------------- *)

Lemma split_high_low v :
  Z.shiftr v 8 * 256 + Z.land v 0xff = v.
Proof.
  rewrite Z.shiftr_div_pow2 by lia.
  change 0xff with (Z.ones 8). rewrite Z.land_ones by lia.
  change (2 ^ 8) with 256.
  pose proof (Z.div_mod v 256). lia.
Qed.

(** C4. [convert_to_byte_buffer] returns [[v]] on [0..255]; on [256..65535]
    it returns [[v >> 8, v & 0xFF]], which decodes big-endian back to [v];
    above [4294967295] it returns the empty list. *)
Theorem convert_to_byte_buffer_ranges (v : Z) :
  (0 <= v <= 255 -> convert_to_byte_buffer v = [v]) /\
  (256 <= v <= 65535 ->
     convert_to_byte_buffer v = [Z.shiftr v 8; Z.land v 0xff] /\
     decode_big_endian (convert_to_byte_buffer v) = v) /\
  (v > 4294967295 -> convert_to_byte_buffer v = []).
Proof.
  unfold convert_to_byte_buffer. repeat split.
  - intros H. replace (v <=? 255) with true by (symmetry; apply Z.leb_le; lia).
    reflexivity.
  - replace (v <=? 255) with false by (symmetry; apply Z.leb_gt; lia).
    replace (v <=? 65535) with true by (symmetry; apply Z.leb_le; lia).
    reflexivity.
  - replace (v <=? 255) with false by (symmetry; apply Z.leb_gt; lia).
    replace (v <=? 65535) with true by (symmetry; apply Z.leb_le; lia).
    cbv [decode_big_endian fold_left]. rewrite Z.mul_0_l, Z.add_0_l.
    apply split_high_low.
  - intros H.
    replace (v <=? 255) with false by (symmetry; apply Z.leb_gt; lia).
    replace (v <=? 65535) with false by (symmetry; apply Z.leb_gt; lia).
    replace (v <=? 4294967295) with false by (symmetry; apply Z.leb_gt; lia).
    reflexivity.
Qed.

Lemma convert_to_byte_buffer_ranges_witness :
  convert_to_byte_buffer 200 = [200] /\
  (convert_to_byte_buffer 15360 = [60; 0] /\
   decode_big_endian (convert_to_byte_buffer 15360) = 15360) /\
  convert_to_byte_buffer 4294967296 = [].
Proof.
  split; [|split].
  - apply (proj1 (convert_to_byte_buffer_ranges 200)). lia.
  - apply (proj1 (proj2 (convert_to_byte_buffer_ranges 15360))). lia.
  - apply (proj2 (proj2 (convert_to_byte_buffer_ranges 4294967296))). lia.
Defined.

(* ------------------------------------------------------------------------- *)
(** ** Address change, mode change, loopback                                  *)
(* ------------------------------------------------------------------------- *)

(** With different addresses, the range checks come first. *)
Lemma set_address_checked self cur new tr :
  cur <> new ->
  (cur < 0x01 \/ cur > 0x7f) \/ (new < 0x01 \/ new > 0x7f) ->
  set_address self cur new tr = (Ret false, tr).
Proof.
  intros Hne Hrange. unfold set_address.
  replace (cur =? new) with false by (symmetry; now apply Z.eqb_neq).
  destruct ((cur <? 1) || (cur >? 127)) eqn:Hc; [reflexivity|].
  destruct ((new <? 1) || (new >? 127)) eqn:Hn; [reflexivity|].
  apply orb_false_iff in Hc, Hn. lia.
Qed.

(** C10. [set_address(a, a)] returns [True] with no bus call, whatever [a]
    is; the range check is only reached when the two addresses differ, and
    then an address outside [0x01..0x7F] gives [False] with no bus call. *)
Theorem set_address_equal_or_checked (self : PoStep256) (tr : list event) :
  (forall a, set_address self a a tr = (Ret true, tr)) /\
  (forall cur new,
     cur <> new ->
     (cur < 0x01 \/ cur > 0x7f) \/ (new < 0x01 \/ new > 0x7f) ->
     set_address self cur new tr = (Ret false, tr)).
Proof.
  split.
  - intros a. unfold set_address.
    replace (a =? a) with true by (symmetry; apply Z.eqb_refl).
    reflexivity.
  - intros cur new Hne Hrange. now apply set_address_checked.
Qed.

Lemma set_address_equal_or_checked_witness :
  set_address (session_on (echo_bus x06)) 0 0 [] = (Ret true, []) /\
  set_address (session_on (echo_bus x06)) 0x80 0x0b [] = (Ret false, []).
Proof.
  split.
  - apply (proj1 (set_address_equal_or_checked _ [])).
  - apply (proj2 (set_address_equal_or_checked _ [])); lia.
Defined.

(** C3. On a session that holds its bus, [set_driver_mode(MODE_AUTO)] makes
    exactly three bus calls, in this order: a write to [0x5F] with no payload,
    a write to [0x5E] with no payload, a write to [0x05] with payload
    [[0x06]]. This holds whatever the first two writes answer, and the value
    returned is the answer of the third write alone. *)
Theorem set_driver_mode_auto_three_writes
    (self : PoStep256) (bus : Bus) (addr : Z) (tr : list event) :
  functional self bus addr ->
  let tr2 := tr ++ [EvWrite addr 0x5f []; EvWrite addr 0x5e []] in
  set_driver_mode self MODE_AUTO tr =
    (Ret (bus_write bus tr2 addr 0x05 [0x06]),
     tr ++ [EvWrite addr 0x5f []; EvWrite addr 0x5e [];
            EvWrite addr 0x05 [0x06]]).
Proof.
  intros Hf tr2. subst tr2.
  unfold set_driver_mode, stop, set_zero, bind, MODE_AUTO.
  rewrite (write_data_live _ _ _ _ _ _ Hf) by lia.
  rewrite (write_data_live _ _ _ _ _ _ Hf) by lia.
  cbn [Z.eqb Pos.eqb orb].
  rewrite (write_data_live _ _ _ _ _ _ Hf) by lia.
  cbn [arg_list]. rewrite <- !app_assoc. reflexivity.
Qed.

Lemma set_driver_mode_auto_three_writes_witness :
  set_driver_mode (session_on silent_bus) MODE_AUTO [] =
    (Ret false,
     [EvWrite 0x0a 0x5f []; EvWrite 0x0a 0x5e []; EvWrite 0x0a 0x05 [0x06]]).
Proof.
  apply (set_driver_mode_auto_three_writes (session_on silent_bus)
           silent_bus 0x0a []).
  split; reflexivity.
Defined.

(** C6. [loopback_read] never raises. It returns [True] exactly when the
    session holds its bus, the write of the probe [[0x91,0x92,0x93,0x94]] to
    register [0x01] goes through, and the following 5-byte read of register
    [0x01] returns a list whose elements after the first are the probe, in
    order. In every other case it returns [False]. *)
Theorem loopback_read_true_iff (self : PoStep256) (tr : list event) :
  (fst (loopback_read self tr) = Ret true <->
   exists bus addr reply,
     functional self bus addr /\
     bus_write bus tr addr 0x01 PROBE = true /\
     bus_read bus (tr ++ [EvWrite addr 0x01 PROBE]) addr 0x01 5 = Some reply /\
     map int_of_byte (tl reply) = PROBE) /\
  (fst (loopback_read self tr) = Ret true \/
   fst (loopback_read self tr) = Ret false).
Proof.
  destruct (i2c_bus self) as [bus|] eqn:Hb.
  2:{ assert (H : loopback_read self tr = (Ret false, tr)).
      { unfold loopback_read, try_except, bind.
        now rewrite write_data_dead. }
      rewrite H. split; [|now right]. split; [discriminate|].
      intros (bus & addr & reply & [Hb' _] & _). congruence. }
  destruct (i2c_address self) as [addr|] eqn:Ha.
  2:{ assert (H : loopback_read self tr = (Ret false, tr)).
      { unfold loopback_read, try_except, bind, write_data, try_except, bind,
          write_i2c_block_data. rewrite Hb, Ha. reflexivity. }
      rewrite H. split; [|now right]. split; [discriminate|].
      intros (bus' & addr' & reply & [_ Ha'] & _). congruence. }
  assert (Hf : functional self bus addr) by (split; assumption).
  assert (H : fst (loopback_read self tr) =
              Ret (if bus_write bus tr addr 0x01 PROBE then
                     match bus_read bus (tr ++ [EvWrite addr 0x01 PROBE])
                             addr 0x01 5 with
                     | Some reply =>
                         if list_eq_dec Z.eq_dec
                              (map int_of_byte (tl reply)) PROBE
                         then true else false
                     | None => false
                     end
                   else false)).
  { unfold loopback_read, try_except, bind.
    rewrite (write_data_live _ _ _ _ _ _ Hf) by lia.
    cbn [arg_list]. fold PROBE.
    destruct (bus_write bus tr addr 1 PROBE); cbn [negb]; [|reflexivity].
    change (Z.of_nat (length PROBE) + 1) with 5.
    rewrite (read_data_live _ _ _ _ _ _ Hf) by lia.
    destruct (bus_read bus _ addr 1 5) as [reply|]; [|reflexivity].
    now destruct (list_eq_dec Z.eq_dec (map int_of_byte (tl reply)) PROBE). }
  rewrite H. split.
  - split.
    + intros Ht. exists bus, addr.
      destruct (bus_write bus tr addr 1 PROBE); [|discriminate].
      destruct (bus_read bus _ addr 1 5) as [reply|]; [|discriminate].
      exists reply.
      destruct (list_eq_dec Z.eq_dec (map int_of_byte (tl reply)) PROBE);
        [auto|discriminate].
    + intros (bus' & addr' & reply & [Hb' Ha'] & Hw & Hr & Heq).
      assert (bus' = bus) by congruence. assert (addr' = addr) by congruence.
      subst. rewrite Hw, Hr.
      now destruct (list_eq_dec Z.eq_dec (map int_of_byte (tl reply)) PROBE).
  - destruct (bus_write bus tr addr 1 PROBE); [|now right].
    destruct (bus_read bus _ addr 1 5) as [reply|]; [|now right].
    destruct (list_eq_dec Z.eq_dec (map int_of_byte (tl reply)) PROBE);
      [now left|now right].
Qed.

(* ------------------------------------------------------------------------- *)
(** ** Payload byte order: position and speed registers                       *)
(* ------------------------------------------------------------------------- *)

Lemma pad_to_four_repeat (l : list Z) :
  pad_to_four l = l ++ repeat 0 (4 - length l)%nat.
Proof.
  funelim (pad_to_four l).
  - rewrite H. rewrite <- app_assoc, length_app. cbn [length].
    f_equal.
    replace (4 - length buffer)%nat with (S (4 - (length buffer + 1)))%nat
      by lia.
    reflexivity.
  - replace (4 - length buffer)%nat with 0%nat by lia.
    now rewrite app_nil_r.
Qed.

Lemma land_byte_small v : 0 <= v <= 255 -> Z.land v 0xff = v.
Proof.
  intros H. change 0xff with (Z.ones 8). rewrite Z.land_ones by lia.
  apply Z.mod_small. change (2 ^ 8) with 256. lia.
Qed.

Lemma shiftr_small v n : 0 <= v < 2 ^ n -> 0 <= n -> Z.shiftr v n = 0.
Proof.
  intros H Hn. rewrite Z.shiftr_div_pow2 by lia. now apply Z.div_small.
Qed.

Lemma shiftr_bounds v n m :
  0 <= v < 2 ^ (n + m) -> 0 <= n -> 0 <= m -> 0 <= Z.shiftr v n < 2 ^ m.
Proof.
  intros H Hn Hm. rewrite Z.shiftr_div_pow2 by lia.
  rewrite Z.pow_add_r in H by lia. split.
  - apply Z.div_pos; lia.
  - apply Z.div_lt_upper_bound; lia.
Qed.

Lemma little_endian_4_of_buffer v :
  0 <= v <= 4294967295 ->
  pad_to_four (rev (convert_to_byte_buffer v)) = little_endian_4 v.
Proof.
  intros Hv. rewrite pad_to_four_repeat.
  unfold convert_to_byte_buffer, little_endian_4.
  destruct (v <=? 255) eqn:H1; [apply Z.leb_le in H1 | apply Z.leb_gt in H1].
  { cbn [rev app length Nat.sub repeat].
    rewrite land_byte_small by lia.
    rewrite (shiftr_small v 8) by (change (2 ^ 8) with 256; lia).
    rewrite (shiftr_small v 16) by (change (2 ^ 16) with 65536; lia).
    rewrite (shiftr_small v 24) by (change (2 ^ 24) with 16777216; lia).
    reflexivity. }
  destruct (v <=? 65535) eqn:H2; [apply Z.leb_le in H2 | apply Z.leb_gt in H2].
  { cbn [rev app length Nat.sub repeat].
    pose proof (shiftr_bounds v 8 8 ltac:(change (2 ^ (8 + 8)) with 65536; lia)
                  ltac:(lia) ltac:(lia)) as Hb.
    change (2 ^ 8) with 256 in Hb.
    rewrite (land_byte_small (Z.shiftr v 8)) by lia.
    rewrite (shiftr_small v 16) by (change (2 ^ 16) with 65536; lia).
    rewrite (shiftr_small v 24) by (change (2 ^ 24) with 16777216; lia).
    reflexivity. }
  replace (v <=? 4294967295) with true by (symmetry; apply Z.leb_le; lia).
  cbn [rev app length Nat.sub repeat].
  rewrite !Z.shiftr_land.
  change (Z.shiftr 65535 8) with 0xff.
  change (Z.shiftr 16777215 (8 * 2)) with 0xff.
  change (8 * 2) with 16. change (8 * 3) with 24.
  pose proof (shiftr_bounds v 24 8
                ltac:(change (2 ^ (24 + 8)) with 4294967296; lia)
                ltac:(lia) ltac:(lia)) as Hb.
  change (2 ^ 8) with 256 in Hb.
  rewrite (land_byte_small (Z.shiftr v 24)) by lia.
  reflexivity.
Qed.

(** C8. When the mode query answers position-control or button mode,
    [set_position(v)] with [0 <= v <= 4294967295] writes to register [0x50]
    a payload of exactly 4 elements: the minimal big-endian encoding of [v]
    reversed, followed by zeros up to 4, which is [v] in little-endian
    order. *)
Theorem set_position_payload
    (self : PoStep256) (bus : Bus) (addr : Z) (tr : list event)
    (v : Z) (mode : byte) (more : list byte) :
  functional self bus addr ->
  bus_write bus tr addr 0x14 [] = true ->
  bus_read bus (tr ++ [EvWrite addr 0x14 []]) addr 0x14 1
    = Some (mode :: more) ->
  int_of_byte mode = MODE_POSITION_CONT \/
  int_of_byte mode = MODE_BINX_BUTTONS ->
  0 <= v <= 4294967295 ->
  exists payload,
    snd (set_position self v tr) =
      tr ++ [EvWrite addr 0x14 []; EvRead addr 0x14 1;
             EvWrite addr 0x50 payload] /\
    length payload = 4%nat /\
    payload =
      rev (convert_to_byte_buffer v)
      ++ repeat 0 (4 - length (convert_to_byte_buffer v))%nat /\
    payload = little_endian_4 v.
Proof.
  intros Hf Hw Hr Hmode Hv.
  exists (pad_to_four (rev (convert_to_byte_buffer v))).
  split; [|split; [|split]].
  - unfold set_position, read_driver_mode, bind.
    rewrite (read_value_live _ _ _ _ _ Hf) by lia.
    rewrite Hw. cbv zeta. rewrite Hr.
    assert (Hgate :
      mode_differs (Some (int_of_byte mode)) MODE_POSITION_CONT
      && mode_differs (Some (int_of_byte mode)) MODE_BINX_BUTTONS = false).
    { unfold mode_differs.
      destruct Hmode as [-> | ->]; reflexivity. }
    rewrite Hgate.
    rewrite (write_data_live _ _ _ _ _ _ Hf) by lia.
    cbn [snd arg_list]. rewrite <- !app_assoc. reflexivity.
  - rewrite little_endian_4_of_buffer by assumption. reflexivity.
  - rewrite pad_to_four_repeat, length_rev. reflexivity.
  - now apply little_endian_4_of_buffer.
Qed.

Lemma set_position_payload_witness :
  exists payload,
    snd (set_position (session_on (echo_bus x04)) 70000 []) =
      [EvWrite 0x0a 0x14 []; EvRead 0x0a 0x14 1;
       EvWrite 0x0a 0x50 payload] /\
    length payload = 4%nat /\
    payload =
      rev (convert_to_byte_buffer 70000)
      ++ repeat 0 (4 - length (convert_to_byte_buffer 70000))%nat /\
    payload = little_endian_4 70000.
Proof.
  apply (set_position_payload (session_on (echo_bus x04)) (echo_bus x04)
           0x0a [] 70000 x04 []).
  - split; reflexivity.
  - reflexivity.
  - reflexivity.
  - left; reflexivity.
  - lia.
Defined.

Lemma set_speed_live self bus addr register v tr :
  functional self bus addr ->
  0x01 <= register <= 0x60 ->
  0 <= v <= 65535 ->
  set_speed self register v tr =
    (Ret (bus_write bus tr addr register [Z.land v 0xff; Z.shiftr v 8]),
     tr ++ [EvWrite addr register [Z.land v 0xff; Z.shiftr v 8]]).
Proof.
  intros Hf Hr Hv. unfold set_speed, convert_to_byte_buffer.
  destruct (v <=? 255) eqn:H1; [apply Z.leb_le in H1 | apply Z.leb_gt in H1].
  - cbn [app]. rewrite (write_data_live _ _ _ _ _ _ Hf Hr). cbn [arg_list].
    rewrite land_byte_small by lia.
    rewrite (shiftr_small v 8) by (change (2 ^ 8) with 256; lia).
    reflexivity.
  - replace (v <=? 65535) with true by (symmetry; apply Z.leb_le; lia).
    cbv zeta. now rewrite (write_data_live _ _ _ _ _ _ Hf Hr).
Qed.

(** C2 (amended). For an in-range value [v], each speed-class setter hands
    the bus a payload of exactly two elements, [[v & 0xFF, v >> 8]]. When the
    minimal encoding of [v] is two bytes wide this is that encoding reversed
    (least-significant byte first); when it is one byte wide the payload is
    that byte followed by a zero, not the single byte alone.
    [set_requested_speed] does so after a mode query that answers
    [MODE_AUTO]. *)
Theorem speed_setters_payload
    (self : PoStep256) (bus : Bus) (addr : Z) (tr : list event) (v : Z) :
  functional self bus addr ->
  0 <= v ->
  let payload := [Z.land v 0xff; Z.shiftr v 8] in
  ((v <= 255 ->
      convert_to_byte_buffer v = [v] /\ payload = [v; 0]) /\
   (256 <= v <= 65535 ->
      length (convert_to_byte_buffer v) = 2%nat /\
      payload = rev (convert_to_byte_buffer v))) /\
  (v <= MAX_SPEED ->
     snd (set_max_speed self v tr) = tr ++ [EvWrite addr 0x51 payload]) /\
  (v <= MAX_ACCELERATION ->
     snd (set_acceleration self v tr) = tr ++ [EvWrite addr 0x52 payload]) /\
  (v <= MAX_ACCELERATION ->
     snd (set_deceleration self v tr) = tr ++ [EvWrite addr 0x53 payload]) /\
  (v <= MAX_SPEED ->
     forall mode more,
       bus_write bus tr addr 0x14 [] = true ->
       bus_read bus (tr ++ [EvWrite addr 0x14 []]) addr 0x14 1
         = Some (mode :: more) ->
       int_of_byte mode = MODE_AUTO ->
       snd (set_requested_speed self v tr) =
         tr ++ [EvWrite addr 0x14 []; EvRead addr 0x14 1;
                EvWrite addr 0x54 payload]).
Proof.
  intros Hf Hv payload. subst payload.
  unfold MAX_SPEED, MAX_ACCELERATION.
  split; [split|split; [|split; [|split]]].
  - intros H. unfold convert_to_byte_buffer.
    replace (v <=? 255) with true by (symmetry; apply Z.leb_le; lia).
    rewrite land_byte_small by lia.
    rewrite (shiftr_small v 8) by (change (2 ^ 8) with 256; lia).
    split; reflexivity.
  - intros H. unfold convert_to_byte_buffer.
    replace (v <=? 255) with false by (symmetry; apply Z.leb_gt; lia).
    replace (v <=? 65535) with true by (symmetry; apply Z.leb_le; lia).
    split; reflexivity.
  - intros H. unfold set_max_speed, MAX_SPEED.
    replace ((v <? 0) || (v >? 60000)) with false
      by (symmetry; apply orb_false_iff; split; lia).
    now rewrite (set_speed_live _ _ _ _ _ _ Hf) by lia.
  - intros H. unfold set_acceleration, MAX_ACCELERATION.
    replace ((v <? 0) || (v >? 50000)) with false
      by (symmetry; apply orb_false_iff; split; lia).
    now rewrite (set_speed_live _ _ _ _ _ _ Hf) by lia.
  - intros H. unfold set_deceleration, MAX_ACCELERATION.
    replace ((v <? 0) || (v >? 50000)) with false
      by (symmetry; apply orb_false_iff; split; lia).
    now rewrite (set_speed_live _ _ _ _ _ _ Hf) by lia.
  - intros H mode more Hw Hr Hm.
    unfold set_requested_speed, read_driver_mode, bind, MAX_SPEED.
    rewrite (read_value_live _ _ _ _ _ Hf) by lia.
    rewrite Hw. cbv zeta. rewrite Hr.
    unfold mode_differs. rewrite Hm. cbn [Z.eqb MODE_AUTO Pos.eqb negb].
    replace ((v <? 0) || (v >? 60000)) with false
      by (symmetry; apply orb_false_iff; split; lia).
    rewrite (set_speed_live _ _ _ _ _ _ Hf) by lia.
    cbn [snd]. now rewrite <- !app_assoc.
Qed.

Lemma speed_setters_payload_witness :
  snd (set_max_speed (session_on (echo_bus x06)) 15360 []) =
    [EvWrite 0x0a 0x51 [0; 60]] /\
  snd (set_requested_speed (session_on (echo_bus x06)) 15360 []) =
    [EvWrite 0x0a 0x14 []; EvRead 0x0a 0x14 1; EvWrite 0x0a 0x54 [0; 60]].
Proof.
  pose proof (speed_setters_payload (session_on (echo_bus x06))
                (echo_bus x06) 0x0a [] 15360
                (conj eq_refl eq_refl) ltac:(lia)) as H.
  cbv zeta in H.
  destruct H as (_ & Hmax & _ & _ & Hreq).
  split.
  - apply Hmax. unfold MAX_SPEED. lia.
  - apply (Hreq ltac:(unfold MAX_SPEED; lia) x06 []); reflexivity.
Defined.

(** C2 (as stated, refuted). With a one-byte encoding the payload is not the
    single byte: [set_max_speed(5)] hands the bus [[5, 0]], while the minimal
    encoding of 5 is [[5]]. *)
Lemma speed_one_byte_is_padded :
  set_max_speed (session_on (echo_bus x06)) 5 [] =
    (Ret true, [EvWrite 0x0a 0x51 [5; 0]]) /\
  convert_to_byte_buffer 5 = [5] /\
  [5; 0] <> convert_to_byte_buffer 5.
Proof.
  split; [reflexivity|]. split; [reflexivity|]. discriminate.
Qed.

(* ------------------------------------------------------------------------- *)
(** ** Mode gate of the requested-speed write                                 *)
(* ------------------------------------------------------------------------- *)

(** C5 (amended). On a session that holds its bus, every call of
    [set_requested_speed] starts by querying register [0x14] (a write with no
    payload selecting the register, then a one-byte read), whatever happened
    before. When the byte read is not [MODE_AUTO] the call returns [False] and
    these two calls of the query are the only bus traffic: nothing is written
    to the speed register [0x54]. *)
Theorem set_requested_speed_gate
    (self : PoStep256) (bus : Bus) (addr : Z) (tr : list event) (v : Z) :
  functional self bus addr ->
  (exists rest,
     snd (set_requested_speed self v tr) =
       tr ++ EvWrite addr 0x14 [] :: rest) /\
  (forall mode more,
     bus_write bus tr addr 0x14 [] = true ->
     bus_read bus (tr ++ [EvWrite addr 0x14 []]) addr 0x14 1
       = Some (mode :: more) ->
     int_of_byte mode <> MODE_AUTO ->
     set_requested_speed self v tr =
       (Ret false, tr ++ [EvWrite addr 0x14 []; EvRead addr 0x14 1])).
Proof.
  intros Hf. split.
  - unfold set_requested_speed, read_driver_mode, bind.
    rewrite (read_value_live _ _ _ _ _ Hf) by lia.
    destruct (bus_write bus tr addr 20 []).
    2:{ cbn. now exists []. }
    cbv zeta.
    destruct (bus_read bus _ addr 20 1) as [[|b l]|].
    + exists [EvRead addr 20 1]. cbn [snd]. now rewrite <- app_assoc.
    + destruct (mode_differs (Some (int_of_byte b)) MODE_AUTO).
      { exists [EvRead addr 20 1]. cbn [snd]. now rewrite <- app_assoc. }
      destruct ((v <? 0) || (v >? MAX_SPEED)).
      { exists [EvRead addr 20 1]. cbn [snd]. now rewrite <- app_assoc. }
      unfold set_speed.
      destruct (convert_to_byte_buffer v) as [|b0 [|b1 rest]].
      * exists [EvRead addr 20 1]. cbn [snd]. now rewrite <- app_assoc.
      * destruct (write_data self 84 (ArgList ([b0] ++ [0])) _) as [r t] eqn:E.
        unfold write_data, try_except, bind, write_i2c_block_data, ret in E.
        destruct Hf as [Hb Ha]. rewrite Hb, Ha in E. cbn in E.
        destruct (bus_write bus _ addr 84 [b0; 0]); inversion E; subst;
          eexists; cbn [snd]; rewrite <- !app_assoc; reflexivity.
      * destruct (write_data self 84 (ArgList [b1; b0]) _) as [r t] eqn:E.
        unfold write_data, try_except, bind, write_i2c_block_data, ret in E.
        destruct Hf as [Hb Ha]. rewrite Hb, Ha in E. cbn in E.
        destruct (bus_write bus _ addr 84 [b1; b0]); inversion E; subst;
          eexists; cbn [snd]; rewrite <- !app_assoc; reflexivity.
    + exists [EvRead addr 20 1]. cbn [snd]. now rewrite <- app_assoc.
  - intros mode more Hw Hr Hm.
    unfold set_requested_speed, read_driver_mode, bind.
    rewrite (read_value_live _ _ _ _ _ Hf) by lia.
    rewrite Hw. cbv zeta. rewrite Hr.
    unfold mode_differs.
    replace (int_of_byte mode =? MODE_AUTO) with false
      by (symmetry; now apply Z.eqb_neq).
    cbn [negb]. unfold ret. now rewrite <- app_assoc.
Qed.

Lemma set_requested_speed_gate_witness :
  (exists rest,
     snd (set_requested_speed (session_on (echo_bus x01)) 100 []) =
       EvWrite 0x0a 0x14 [] :: rest) /\
  set_requested_speed (session_on (echo_bus x01)) 100 [] =
    (Ret false, [EvWrite 0x0a 0x14 []; EvRead 0x0a 0x14 1]).
Proof.
  pose proof (set_requested_speed_gate (session_on (echo_bus x01))
                (echo_bus x01) 0x0a [] 100 (conj eq_refl eq_refl))
    as [Hq Hg].
  split.
  - exact Hq.
  - apply (Hg x01 []); [reflexivity | reflexivity | discriminate].
Defined.

(** The mode is read from the device at each call: the same session accepts
    a speed while the device reports [MODE_AUTO] and refuses the next one
    once the device reports another mode. *)
Example mode_is_queried_again :
  let self := session_on leaving_auto_bus in
  let first := set_requested_speed self 1000 [] in
  let second := set_requested_speed self 1000 (snd first) in
  first = (Ret true, [EvWrite 0x0a 0x14 []; EvRead 0x0a 0x14 1;
                      EvWrite 0x0a 0x54 [232; 3]]) /\
  second = (Ret false, snd first
                       ++ [EvWrite 0x0a 0x14 []; EvRead 0x0a 0x14 1]).
Proof. split; reflexivity. Qed.

(** C5 (as stated, refuted). With the device reporting [MODE_DEFAULT] the
    call fails, yet the bus has seen a write: the register-select write of
    the mode query itself. *)
Lemma mode_query_writes_to_bus :
  set_requested_speed (session_on (echo_bus x01)) 100 [] =
    (Ret false, [EvWrite 0x0a 0x14 []; EvRead 0x0a 0x14 1]) /\
  In (EvWrite 0x0a 0x14 [])
     (snd (set_requested_speed (session_on (echo_bus x01)) 100 [])).
Proof.
  split; [reflexivity|]. left. reflexivity.
Qed.

(* ------------------------------------------------------------------------- *)
(** ** binary64 facts behind [int(123 * value)]                               *)
(* ------------------------------------------------------------------------- *)

(** The product [123 * value] is rounded to nearest-even; the lemmas below
    bound the rounded result through the reference implementation of
    [SpecFloat], to which the primitive operations are tied. *)

Lemma digits2_pos_upper p : Z.pos p < 2 ^ Z.pos (digits2_pos p).
Proof.
  induction p as [p IH|p IH|]; cbn [digits2_pos].
  - rewrite Pos2Z.inj_succ, Z.pow_succ_r by lia. rewrite (Pos2Z.inj_xI p).
    revert IH. generalize (2 ^ Z.pos (digits2_pos p)). intros; lia.
  - rewrite Pos2Z.inj_succ, Z.pow_succ_r by lia. rewrite (Pos2Z.inj_xO p).
    revert IH. generalize (2 ^ Z.pos (digits2_pos p)). intros; lia.
  - reflexivity.
Qed.

Lemma digits2_pos_lower p : 2 ^ Z.pos (digits2_pos p) <= 2 * Z.pos p.
Proof.
  induction p as [p IH|p IH|]; cbn [digits2_pos].
  - rewrite Pos2Z.inj_succ, Z.pow_succ_r by lia. rewrite (Pos2Z.inj_xI p).
    revert IH. generalize (2 ^ Z.pos (digits2_pos p)). intros; lia.
  - rewrite Pos2Z.inj_succ, Z.pow_succ_r by lia. rewrite (Pos2Z.inj_xO p).
    revert IH. generalize (2 ^ Z.pos (digits2_pos p)). intros; lia.
  - cbn. lia.
Qed.

Lemma Zdigits2_le m k : 0 <= m < 2 ^ k -> 0 <= k -> Zdigits2 m <= k.
Proof.
  intros [H0 Hm] Hk. destruct m as [|p|p]; cbn [Zdigits2]; try lia.
  pose proof (digits2_pos_lower p) as Hl.
  destruct (Z_le_gt_dec (Z.pos (digits2_pos p)) k) as [|Hgt]; [assumption|].
  assert (2 ^ (k + 1) <= 2 ^ Z.pos (digits2_pos p))
    by (apply Z.pow_le_mono_r; lia).
  rewrite Z.pow_add_r in H by lia. change (2 ^ 1) with 2 in H. lia.
Qed.

Lemma shr_1_div2 mrs : 0 <= shr_m mrs -> shr_m (shr_1 mrs) = shr_m mrs / 2.
Proof.
  intros H. rewrite <- Z.div2_div.
  destruct mrs as [m r s]. cbn [shr_m] in *.
  destruct m as [|[p|p|]|p]; try reflexivity. lia.
Qed.

Lemma iter_shr_1 p : forall mrs,
  0 <= shr_m mrs ->
  shr_m (iter_pos shr_1 p mrs) = shr_m mrs / 2 ^ Z.pos p.
Proof.
  induction p as [p IH|p IH|]; intros mrs H; cbn [iter_pos].
  - assert (H1 : 0 <= shr_m (shr_1 mrs))
      by (rewrite shr_1_div2 by assumption; apply Z.div_pos; lia).
    assert (H2 : 0 <= shr_m (iter_pos shr_1 p (shr_1 mrs)))
      by (rewrite IH by assumption; apply Z.div_pos; lia).
    rewrite IH, IH, shr_1_div2 by assumption.
    rewrite !Z.div_div by lia. f_equal.
    rewrite (Pos2Z.inj_xI p).
    replace (2 * Z.pos p + 1) with (1 + Z.pos p + Z.pos p) by lia.
    rewrite !Z.pow_add_r by lia. change (2 ^ 1) with 2. ring.
  - assert (H2 : 0 <= shr_m (iter_pos shr_1 p mrs))
      by (rewrite IH by assumption; apply Z.div_pos; lia).
    rewrite IH, IH by assumption.
    rewrite !Z.div_div by lia. f_equal.
    rewrite (Pos2Z.inj_xO p).
    replace (2 * Z.pos p) with (Z.pos p + Z.pos p) by lia.
    rewrite !Z.pow_add_r by lia. reflexivity.
  - now apply shr_1_div2.
Qed.

Lemma shr_spec mrs e n :
  0 <= shr_m mrs ->
  shr_m (fst (shr mrs e n)) = shr_m mrs / 2 ^ Z.max n 0 /\
  snd (shr mrs e n) = e + Z.max n 0.
Proof.
  intros H. destruct n as [|p|p]; cbn [shr fst snd].
  - cbn. rewrite Z.div_1_r. lia.
  - rewrite iter_shr_1 by assumption.
    replace (Z.max (Z.pos p) 0) with (Z.pos p) by lia. split; reflexivity.
  - replace (Z.max (Z.neg p) 0) with 0 by lia.
    cbn. rewrite Z.div_1_r. lia.
Qed.

Lemma round_nearest_even_bounds m l :
  m <= round_nearest_even m l <= m + 1.
Proof.
  destruct l as [|[| |]]; cbn [round_nearest_even]; try lia.
  destruct (Z.even m); lia.
Qed.

Lemma div_pow_bound B M K n :
  0 <= n <= K -> 0 <= B -> 0 <= M <= B * 2 ^ K ->
  0 <= M / 2 ^ n <= B * 2 ^ (K - n).
Proof.
  intros Hn HB HM.
  assert (Hp : 0 < 2 ^ n) by (apply Z.pow_pos_nonneg; lia).
  split; [apply Z.div_pos; lia|].
  replace K with ((K - n) + n) in HM by lia.
  rewrite Z.pow_add_r in HM by lia.
  apply Z.div_le_upper_bound; [lia|]. lia.
Qed.

Lemma floor_after_round B m J :
  1 <= J -> 0 <= m <= B * 2 ^ J + 1 -> 0 <= m / 2 ^ J <= B.
Proof.
  intros HJ Hm.
  assert (Hp : 2 <= 2 ^ J).
  { change 2 with (2 ^ 1) at 1. apply Z.pow_le_mono_r; lia. }
  split; [apply Z.div_pos; lia|].
  apply Z.lt_succ_r. apply Z.div_lt_upper_bound; lia.
Qed.

Lemma lt_pow2_738 J : 0 <= J -> 738 * 2 ^ J + 1 < 2 ^ (J + 10).
Proof.
  intros HJ. rewrite Z.pow_add_r by lia. change (2 ^ 10) with 1024.
  assert (0 < 2 ^ J) by (apply Z.pow_pos_nonneg; lia). lia.
Qed.

Lemma binary_round_aux_738 M K :
  96 <= K -> 0 < M <= 738 * 2 ^ K ->
  match binary_round_aux prec emax false M (- K) loc_Exact with
  | S754_zero _ => True
  | S754_finite s m e => s = false /\ 0 <= Z.shiftl (Z.pos m) e <= 738
  | _ => False
  end.
Proof.
  intros HK HM.
  unfold binary_round_aux, shr_fexp.
  set (n := fexp prec emax (Zdigits2 M + - K) - - K).
  assert (Hd : Zdigits2 M <= K + 10).
  { apply Zdigits2_le; [|lia]. pose proof (lt_pow2_738 K). lia. }
  assert (Hn : 0 <= Z.max n 0 <= K - 43).
  { subst n. unfold fexp, SpecFloat.emin, prec, emax. lia. }
  pose proof (shr_spec (shr_record_of_loc M loc_Exact) (- K) n) as Hs.
  cbn [shr_record_of_loc shr_m] in Hs. specialize (Hs ltac:(lia)).
  destruct (shr _ (- K) n) as [mrs1 e1]. cbn [fst snd] in Hs.
  destruct Hs as [Hm1 He1].
  set (J := K - Z.max n 0) in *.
  assert (HJ : 43 <= J) by (subst J; lia).
  assert (Hm1b : 0 <= shr_m mrs1 <= 738 * 2 ^ J).
  { rewrite Hm1. subst J. apply div_pow_bound; lia. }
  pose proof (round_nearest_even_bounds (shr_m mrs1) (loc_of_shr_record mrs1))
    as Hr.
  set (m2 := round_nearest_even (shr_m mrs1) (loc_of_shr_record mrs1)) in *.
  set (n2 := fexp prec emax (Zdigits2 m2 + e1) - e1).
  assert (He1' : e1 = - J) by (subst J; lia).
  assert (Hd2 : Zdigits2 m2 <= J + 10).
  { apply Zdigits2_le; [|lia]. pose proof (lt_pow2_738 J). lia. }
  assert (Hn2 : 0 <= Z.max n2 0 <= J - 43).
  { subst n2. unfold fexp, SpecFloat.emin, prec, emax. lia. }
  pose proof (shr_spec (shr_record_of_loc m2 loc_Exact) e1 n2) as Hs.
  cbn [shr_record_of_loc shr_m] in Hs. specialize (Hs ltac:(lia)).
  destruct (shr _ e1 n2) as [mrs2 e2]. cbn [fst snd] in Hs.
  destruct Hs as [Hm2 He2].
  assert (Hfloor : 0 <= shr_m mrs2 / 2 ^ (- e2) <= 738).
  { rewrite Hm2, Z.div_div by (try apply Z.pow_pos_nonneg; lia).
    rewrite <- Z.pow_add_r by lia.
    replace (Z.max n2 0 + - e2) with J by lia.
    apply floor_after_round; lia. }
  destruct (shr_m mrs2) as [|p|p] eqn:Hm; [exact I| |].
  - replace (e2 <=? emax - prec) with true
      by (symmetry; apply Z.leb_le; unfold emax, prec; lia).
    split; [reflexivity|].
    rewrite Z.shiftl_div_pow2 by lia. exact Hfloor.
  - assert (0 <= Z.neg p); [|lia].
    rewrite Hm2. apply Z.div_pos; [lia|apply Z.pow_pos_nonneg; lia].
Qed.

Lemma valid_finite_bounds s m e :
  valid_binary (S754_finite s m e) = true ->
  Z.pos m < 2 ^ 53 /\ -1074 <= e.
Proof.
  cbn [SpecFloat.valid_binary]. unfold bounded, canonical_mantissa, fexp.
  unfold SpecFloat.emin, prec, emax.
  intros H. apply andb_true_iff in H. destruct H as [H _].
  apply Z.eqb_eq in H. split; [|lia].
  pose proof (digits2_pos_upper m) as Hu.
  assert (2 ^ Z.pos (digits2_pos m) <= 2 ^ 53)
    by (apply Z.pow_le_mono_r; lia).
  lia.
Qed.

Lemma int_of_scaled_current (v : float) :
  (0 <=? v)%float = true -> (v <=? 6)%float = true ->
  exists tq, py_int (123 * v)%float = Ret tq /\ 0 <= tq <= 738.
Proof.
  intros H0 H6. rewrite leb_spec in H0, H6.
  unfold py_int. rewrite mul_spec.
  pose proof (Prim2SF_valid v) as Hv.
  change (Prim2SF 0) with (S754_zero false) in H0.
  change (Prim2SF 6) with (S754_finite false 6755399441055744 (-50)) in H6.
  change (Prim2SF 123) with (S754_finite false 8655355533852672 (-46)).
  destruct (Prim2SF v) as [s|s| |s m e].
  - exists 0. cbn. split; [reflexivity|lia].
  - destruct s; discriminate.
  - discriminate.
  - destruct s; [discriminate|].
    apply valid_finite_bounds in Hv. destruct Hv as [Hm He].
    unfold SF64mul, SFmul. cbn [xorb].
    assert (HM : 96 <= 46 - e /\
                 0 < Z.pos (8655355533852672 * m) <= 738 * 2 ^ (46 - e)).
    { rewrite Pos2Z.inj_mul.
      unfold SFleb, SFcompare in H6.
      destruct (e ?= -50) eqn:Hc.
      - apply Z.compare_eq in Hc. subst e.
        change (46 - -50) with 96.
        assert (Z.pos m <= 6755399441055744).
        { destruct (PosDef.Pos.compare_cont Eq m 6755399441055744) eqn:Hp;
            try discriminate.
          - apply Pos.compare_eq in Hp. rewrite Hp. apply Z.le_refl.
          - apply Z.lt_le_incl. exact Hp. }
        lia.
      - apply (proj1 (Z.compare_lt_iff _ _)) in Hc.
        assert (2 ^ 97 <= 2 ^ (46 - e)) by (apply Z.pow_le_mono_r; lia).
        lia.
      - discriminate. }
    destruct HM as [HK HM].
    replace (-46 + e) with (- (46 - e)) by lia.
    pose proof (binary_round_aux_738 _ _ HK HM) as Hr.
    destruct (binary_round_aux prec emax false _ _ loc_Exact)
      as [s'|s'| |s' m' e'].
    + exists 0. split; [reflexivity|lia].
    + contradiction.
    + contradiction.
    + destruct Hr as [-> Hb]. eexists. split; [reflexivity|]. exact Hb.
Qed.

(* ------------------------------------------------------------------------- *)
(** ** Current encoding                                                       *)
(* ------------------------------------------------------------------------- *)

(** The loop halves [k] times, where [k] is the first count at which the
    shifted value is at most 255. *)
Lemma halve_until_byte_shift tq ai :
  exists k,
    0 <= k /\
    halve_until_byte tq ai = (Z.shiftr tq k, ai - k) /\
    Z.shiftr tq k <= 255 /\
    (forall j, 0 <= j < k -> Z.shiftr tq j > 255).
Proof.
  funelim (halve_until_byte tq ai).
  - destruct H as (k & Hk & Hres & Hle & Hmin).
    exists (1 + k). split; [lia|]. split; [|split].
    + rewrite Hres, Z.shiftr_shiftr by lia. f_equal. lia.
    + now rewrite <- Z.shiftr_shiftr by lia.
    + intros j Hj. destruct (Z.eq_dec j 0) as [->|Hne].
      * now rewrite Z.shiftr_0_r.
      * replace j with (1 + (j - 1)) by lia.
        rewrite <- Z.shiftr_shiftr by lia. apply Hmin. lia.
  - exists 0. rewrite Z.shiftr_0_r, Z.sub_0_r.
    split; [lia|]. split; [reflexivity|]. split; [lia|]. intros j Hj. lia.
Qed.

Lemma shiftr_nonneg_le a k : 0 <= a -> 0 <= k -> 0 <= Z.shiftr a k <= a.
Proof.
  intros Ha Hk. rewrite Z.shiftr_div_pow2 by lia.
  assert (0 < 2 ^ k) by (apply Z.pow_pos_nonneg; lia).
  split; [apply Z.div_pos; lia|].
  apply Z.div_le_upper_bound; nia.
Qed.

(** Within the range, the comparisons of the public setters let the value
    through. *)
Lemma in_range_passes_guard (v : float) :
  (0 <=? v)%float = true -> (v <=? 6)%float = true ->
  (v <? 0.0)%float || (MAX_CURRENT <? v)%float = false.
Proof.
  intros H0 H6. unfold MAX_CURRENT.
  rewrite leb_spec in H0, H6. rewrite !ltb_spec.
  change (Prim2SF 0) with (S754_zero false) in *.
  change (Prim2SF 6) with (S754_finite false 6755399441055744 (-50)) in *.
  destruct (Prim2SF v) as [s|s| |s m e]; try discriminate.
  - reflexivity.
  - destruct s; discriminate.
  - destruct s; [discriminate|].
    unfold SFleb, SFltb, SFcompare in *. cbn [orb].
    rewrite (Z.compare_antisym e (-50)).
    destruct (e ?= -50); cbn [CompOpp]; try reflexivity; try discriminate.
    pose proof (Pos.compare_cont_antisym m 6755399441055744 Eq) as Ha.
    cbn [CompOpp] in Ha. rewrite <- Ha.
    destruct (PosDef.Pos.compare_cont Eq m 6755399441055744);
      cbn [CompOpp]; try reflexivity; discriminate.
Qed.

(** C1 (amended). For every binary64 value [amps] with [0.0 <= amps <= 6.0],
    [set_current] takes the mantissa [int(123 * amps)], the product truncated
    toward zero (not rounded), which lies in [0..738]; it starts from
    exponent 3 and halves the mantissa [k] times, lowering the exponent each
    time. The final exponent [3 - k] is the largest exponent at most 3 whose
    shifted mantissa is at most 255, and [[mantissa, exponent]] is exactly
    the payload handed to the bus for the register. The public setter
    [set_current_full_scale] does the same on register [0x30]. *)
Theorem set_current_encoding
    (self : PoStep256) (bus : Bus) (addr : Z) (register : Z)
    (amps : float) (tr : list event) :
  functional self bus addr ->
  0x01 <= register <= 0x60 ->
  (0 <=? amps)%float = true ->
  (amps <=? 6)%float = true ->
  exists tq k,
    py_int (123 * amps)%float = Ret tq /\
    0 <= tq <= 738 /\
    0 <= k <= 2 /\
    halve_until_byte tq 3 = (Z.shiftr tq k, 3 - k) /\
    0 <= Z.shiftr tq k <= 255 /\
    (forall e, 3 - k < e <= 3 -> Z.shiftr tq (3 - e) > 255) /\
    set_current self register amps tr =
      (Ret (bus_write bus tr addr register [Z.shiftr tq k; 3 - k]),
       tr ++ [EvWrite addr register [Z.shiftr tq k; 3 - k]]) /\
    set_current_full_scale self amps tr =
      (Ret (bus_write bus tr addr 0x30 [Z.shiftr tq k; 3 - k]),
       tr ++ [EvWrite addr 0x30 [Z.shiftr tq k; 3 - k]]).
Proof.
  intros Hf Hreg H0 H6.
  destruct (int_of_scaled_current amps H0 H6) as (tq & Hint & Htq).
  destruct (halve_until_byte_shift tq 3) as (k & Hk & Heq & Hle & Hmin).
  assert (Hk2 : k <= 2).
  { destruct (Z_le_gt_dec k 2) as [|Hgt]; [assumption|].
    specialize (Hmin 2 ltac:(lia)).
    rewrite Z.shiftr_div_pow2 in Hmin by lia. change (2 ^ 2) with 4 in Hmin.
    assert (tq / 4 < 185) by (apply Z.div_lt_upper_bound; lia). lia. }
  assert (Hset : forall r, 0x01 <= r <= 0x60 ->
            set_current self r amps tr =
              (Ret (bus_write bus tr addr r [Z.shiftr tq k; 3 - k]),
               tr ++ [EvWrite addr r [Z.shiftr tq k; 3 - k]])).
  { intros r Hr. unfold set_current, bind, lift. rewrite Hint.
    cbv zeta. rewrite Heq.
    now rewrite (write_data_live _ _ _ _ _ _ Hf Hr). }
  exists tq, k.
  split; [assumption|]. split; [assumption|]. split; [lia|].
  split; [assumption|]. split; [|split; [|split]].
  - pose proof (shiftr_nonneg_le tq k). lia.
  - intros e He. apply Hmin. lia.
  - now apply Hset.
  - unfold set_current_full_scale.
    rewrite (in_range_passes_guard amps H0 H6). apply Hset. lia.
Qed.

Lemma set_current_encoding_witness :
  exists tq k,
    py_int (123 * 6)%float = Ret tq /\
    0 <= tq <= 738 /\
    0 <= k <= 2 /\
    halve_until_byte tq 3 = (Z.shiftr tq k, 3 - k) /\
    0 <= Z.shiftr tq k <= 255 /\
    (forall e, 3 - k < e <= 3 -> Z.shiftr tq (3 - e) > 255) /\
    set_current (session_on (echo_bus x06)) 0x31 6 [] =
      (Ret (bus_write (echo_bus x06) [] 0x0a 0x31 [Z.shiftr tq k; 3 - k]),
       [] ++ [EvWrite 0x0a 0x31 [Z.shiftr tq k; 3 - k]]) /\
    set_current_full_scale (session_on (echo_bus x06)) 6 [] =
      (Ret (bus_write (echo_bus x06) [] 0x0a 0x30 [Z.shiftr tq k; 3 - k]),
       [] ++ [EvWrite 0x0a 0x30 [Z.shiftr tq k; 3 - k]]).
Proof.
  apply (set_current_encoding (session_on (echo_bus x06)) (echo_bus x06)
           0x0a 0x31 6%float []).
  - split; reflexivity.
  - lia.
  - reflexivity.
  - reflexivity.
Defined.

(** C1 (as stated, refuted). At 0.5 A the product is 61.5: the code writes
    mantissa 61 (truncation), where rounding gives 62. *)
Lemma current_mantissa_is_truncated :
  set_current (session_on (echo_bus x06)) 0x30 0.5 [] =
    (Ret true, [EvWrite 0x0a 0x30 [61; 3]]) /\
  ((0 <=? 0.5)%float = true /\ (0.5 <=? 6)%float = true) /\
  round_nearest (123 * 0.5)%float = Some 62 /\
  encode_current_rounded 0.5 = Some (62, 3).
Proof.
  repeat split; vm_compute; reflexivity.
Qed.

(* ------------------------------------------------------------------------- *)
(** ** Range checks of the write-only setters                                 *)
(* ------------------------------------------------------------------------- *)

(** C7 (amended). Every integer setter with a documented range
    ([set_step_mode] 0..8, [set_temperature_limit] 0..120, [set_max_speed]
    0..60000, [set_acceleration] and [set_deceleration] 0..50000), the
    run/sleep setter for a value that is neither state, and every current
    setter for a value below 0.0 or above 6.0 return [False] with the bus
    untouched; [set_address] does so when the two addresses differ and one of
    them is outside [0x01..0x7F]. In particular [set_acceleration(50001)] and
    [set_temperature_limit(121)] return [False] with the bus untouched. *)
Theorem out_of_range_rejected (self : PoStep256) (tr : list event) :
  (forall v, v < 0 \/ v > 8 -> set_step_mode self v tr = (Ret false, tr)) /\
  (forall v, v < 0 \/ v > 120 ->
     set_temperature_limit self v tr = (Ret false, tr)) /\
  (forall v, v < 0 \/ v > 60000 -> set_max_speed self v tr = (Ret false, tr)) /\
  (forall v, v < 0 \/ v > 50000 ->
     set_acceleration self v tr = (Ret false, tr)) /\
  (forall v, v < 0 \/ v > 50000 ->
     set_deceleration self v tr = (Ret false, tr)) /\
  (forall v, v <> DRIVER_RUN -> v <> DRIVER_SLEEP ->
     set_run_sleep_mode self v tr = (Ret false, tr)) /\
  (forall f, (f <? 0)%float = true \/ (6 <? f)%float = true ->
     set_current_full_scale self f tr = (Ret false, tr) /\
     set_current_idle self f tr = (Ret false, tr) /\
     set_current_overheat self f tr = (Ret false, tr)) /\
  (forall cur new, cur <> new ->
     (cur < 0x01 \/ cur > 0x7f) \/ (new < 0x01 \/ new > 0x7f) ->
     set_address self cur new tr = (Ret false, tr)) /\
  set_acceleration self 50001 tr = (Ret false, tr) /\
  set_temperature_limit self 121 tr = (Ret false, tr).
Proof.
  assert (Hguard : forall v hi, v < 0 \/ v > hi ->
            (v <? 0) || (v >? hi) = true).
  { intros v hi [H|H]; apply orb_true_iff; [left|right]; lia. }
  repeat match goal with |- _ /\ _ => split end.
  - intros v H. unfold set_step_mode. now rewrite Hguard.
  - intros v H. unfold set_temperature_limit, MAX_TEMP. now rewrite Hguard.
  - intros v H. unfold set_max_speed, MAX_SPEED. now rewrite Hguard.
  - intros v H. unfold set_acceleration, MAX_ACCELERATION. now rewrite Hguard.
  - intros v H. unfold set_deceleration, MAX_ACCELERATION. now rewrite Hguard.
  - intros v Hr Hs. unfold set_run_sleep_mode.
    replace (v =? DRIVER_SLEEP) with false by (symmetry; now apply Z.eqb_neq).
    replace (v =? DRIVER_RUN) with false by (symmetry; now apply Z.eqb_neq).
    reflexivity.
  - intros f H.
    assert (Hg : (f <? 0.0)%float || (MAX_CURRENT <? f)%float = true).
    { unfold MAX_CURRENT. apply orb_true_iff. exact H. }
    unfold set_current_full_scale, set_current_idle, set_current_overheat.
    rewrite Hg. repeat split.
  - intros cur new Hne H.
    now apply set_address_checked.
  - unfold set_acceleration. reflexivity.
  - unfold set_temperature_limit. reflexivity.
Qed.

Lemma out_of_range_rejected_witness :
  set_step_mode (session_on (echo_bus x06)) 9 [] = (Ret false, []) /\
  set_max_speed (session_on (echo_bus x06)) (-1) [] = (Ret false, []) /\
  set_current_idle (session_on (echo_bus x06)) 6.5 [] = (Ret false, []) /\
  set_address (session_on (echo_bus x06)) 0x0a 0x80 [] = (Ret false, []) /\
  set_acceleration (session_on (echo_bus x06)) 50001 [] = (Ret false, []) /\
  set_temperature_limit (session_on (echo_bus x06)) 121 [] = (Ret false, []).
Proof.
  destruct (out_of_range_rejected (session_on (echo_bus x06)) [])
    as (Hstep & _ & Hmax & _ & _ & _ & Hcur & Haddr & Hacc & Htemp).
  split; [apply Hstep; lia|].
  split; [apply Hmax; lia|].
  split; [apply (Hcur 6.5%float); right; reflexivity|].
  split; [apply Haddr; lia|].
  split; [exact Hacc | exact Htemp].
Defined.

(** C7 (as stated, refuted). The address pair (0, 0) is outside the
    documented range [0x01..0x7F], yet [set_address] answers [True]. *)
Lemma equal_addresses_not_rejected :
  set_address (session_on (echo_bus x06)) 0 0 [] = (Ret true, []) /\
  0 < 0x01.
Proof. split; [reflexivity | lia]. Qed.

(* ------------------------------------------------------------------------- *)
(** ** Construction and the session without bus handle                        *)
(* ------------------------------------------------------------------------- *)

Lemma not_nan_spec (v : float) :
  is_nan v = false -> Prim2SF v <> S754_nan.
Proof.
  intros H. unfold Prim2SF. rewrite H.
  destruct (is_zero v); [discriminate|].
  destruct (is_infinity v); [discriminate|].
  destruct (Z.frexp v) as [r e].
  destruct (shr_fexp prec emax _ _ loc_Exact) as [mrs e'].
  destruct (shr_m mrs); discriminate.
Qed.

(** A value that is not a NaN is either turned away by the comparisons of
    the current setters or lies in [0.0 .. 6.0]. *)
Lemma guard_or_in_range (v : float) :
  is_nan v = false ->
  (v <? 0.0)%float || (MAX_CURRENT <? v)%float = true \/
  ((0 <=? v)%float = true /\ (v <=? 6)%float = true).
Proof.
  intros Hn. apply not_nan_spec in Hn. unfold MAX_CURRENT.
  rewrite !ltb_spec, !leb_spec.
  change (Prim2SF 0) with (S754_zero false).
  change (Prim2SF 6) with (S754_finite false 6755399441055744 (-50)).
  destruct (Prim2SF v) as [s|s| |s m e]; [| | congruence|].
  - right. split; reflexivity.
  - left. destruct s; reflexivity.
  - destruct s; [left; reflexivity|].
    unfold SFleb, SFltb, SFcompare. cbn [orb].
    rewrite (Z.compare_antisym e (-50)).
    destruct (e ?= -50); cbn [CompOpp]; auto.
    pose proof (Pos.compare_cont_antisym m 6755399441055744 Eq) as Ha.
    cbn [CompOpp] in Ha. rewrite <- Ha.
    destruct (PosDef.Pos.compare_cont Eq m 6755399441055744);
      cbn [CompOpp]; auto.
Qed.

Lemma current_setter_dead self register (v : float) tr :
  i2c_bus self = None ->
  is_nan v = false ->
  (if (v <? 0.0)%float || (MAX_CURRENT <? v)%float then ret false
   else set_current self register v) tr = (Ret false, tr).
Proof.
  intros Hb Hn.
  destruct (guard_or_in_range v Hn) as [Hg | [H0 H6]].
  - now rewrite Hg.
  - rewrite (in_range_passes_guard v H0 H6).
    destruct (int_of_scaled_current v H0 H6) as (tq & Hint & _).
    unfold set_current, bind, lift. rewrite Hint. cbv zeta.
    destruct (halve_until_byte tq 3) as [tq' ai].
    now apply write_data_dead.
Qed.

Lemma read_current_dead self register tr :
  i2c_bus self = None -> read_current self register tr = (Ret None, tr).
Proof.
  intros Hb. unfold read_current, bind. now rewrite write_data_dead.
Qed.

Lemma read_speed_dead self register tr :
  i2c_bus self = None -> read_speed self register tr = (Ret None, tr).
Proof.
  intros Hb. unfold read_speed, bind. now rewrite write_data_dead.
Qed.

Lemma set_speed_dead self register v tr :
  i2c_bus self = None -> set_speed self register v tr = (Ret false, tr).
Proof.
  intros Hb. unfold set_speed.
  destruct (convert_to_byte_buffer v) as [|b0 [|b1 rest]];
    [reflexivity | now apply write_data_dead | now apply write_data_dead].
Qed.

(** Name the answer of a call and reduce to the equation on the call. *)
Ltac answer v := exists v; split; [|reflexivity].

(** On a session without bus handle, each operation outside
    [not_failing_fast] answers [False] or [None] and leaves the bus alone. *)
Lemma call_dead self op tr :
  i2c_bus self = None ->
  not_failing_fast op = false ->
  exists v, call self op tr = (Ret v, tr) /\ is_failure v = true.
Proof.
  intros Hb Hop.
  destruct op; cbn [call not_failing_fast] in *; try discriminate;
    unfold of_bool, of_opt_int, of_opt_float, of_opt_bytes, of_int.
  - answer (VBool false). unfold bind. now rewrite write_data_dead.
  - answer VNone. unfold bind. now rewrite read_data_dead.
  - answer VNone. unfold bind. now rewrite read_value_dead.
  - answer (VBool false). unfold bind, loopback_read, try_except, bind.
    now rewrite write_data_dead.
  - answer (VBool false). unfold bind, set_run_sleep_mode.
    destruct (value =? DRIVER_SLEEP); [now rewrite write_data_dead|].
    destruct (value =? DRIVER_RUN); [now rewrite write_data_dead|].
    reflexivity.
  - answer (VBool false). unfold bind, set_address. rewrite Hop.
    destruct ((cur <? 1) || (cur >? 127)); [reflexivity|].
    destruct ((new <? 1) || (new >? 127)); [reflexivity|].
    now rewrite write_data_dead.
  - answer (VBool false). unfold bind, set_driver_mode, stop, set_zero, bind.
    rewrite !write_data_dead by assumption.
    destruct ((value =? MODE_AUTO) || (value =? MODE_DEFAULT));
      [now rewrite write_data_dead | reflexivity].
  - answer (VBool false). unfold bind, set_pwm_motors.
    now rewrite write_data_dead.
  - answer VNone. unfold bind, read_hw_fw_info, bind.
    now rewrite write_data_dead.
  - answer VNone. unfold bind, read_voltage, bind.
    now rewrite write_data_dead.
  - answer VNone. unfold bind, read_temperature, bind.
    now rewrite write_data_dead.
  - answer VNone. unfold bind, read_pin_statuses.
    now rewrite read_value_dead.
  - answer VNone. unfold bind, read_driver_status.
    now rewrite read_value_dead.
  - answer VNone. unfold bind, read_driver_mode.
    now rewrite read_value_dead.
  - answer VNone. unfold bind, read_current_full_scale.
    now rewrite read_current_dead.
  - answer VNone. unfold bind, read_current_idle.
    now rewrite read_current_dead.
  - answer VNone. unfold bind, read_current_overheat.
    now rewrite read_current_dead.
  - answer VNone. unfold bind, read_temperature_limit.
    now rewrite read_value_dead.
  - answer VNone. unfold bind, read_faults. now rewrite read_value_dead.
  - answer (VBool false). unfold bind, set_current_full_scale.
    now rewrite current_setter_dead.
  - answer (VBool false). unfold bind, set_current_idle.
    now rewrite current_setter_dead.
  - answer (VBool false). unfold bind, set_current_overheat.
    now rewrite current_setter_dead.
  - answer (VBool false). unfold bind, set_step_mode.
    destruct ((value <? 0) || (value >? 8));
      [reflexivity | now rewrite write_data_dead].
  - answer (VBool false). unfold bind, set_temperature_limit.
    destruct ((value <? 0) || (value >? MAX_TEMP));
      [reflexivity | now rewrite write_data_dead].
  - answer (VBool false). unfold bind, reset_faults.
    now rewrite write_data_dead.
  - answer (VBool false). unfold bind, write_settings_to_eeprom.
    now rewrite write_data_dead.
  - answer VNone. unfold bind, read_position, bind.
    now rewrite write_data_dead.
  - answer VNone. unfold bind, read_max_speed. now rewrite read_speed_dead.
  - answer VNone. unfold bind, read_acceleration.
    now rewrite read_speed_dead.
  - answer VNone. unfold bind, read_deceleration.
    now rewrite read_speed_dead.
  - answer VNone. unfold bind, read_current_speed.
    now rewrite read_speed_dead.
  - answer VNone. unfold bind, read_requested_speed.
    now rewrite read_speed_dead.
  - answer VNone. unfold bind, read_auto_run_invert_direction_status.
    now rewrite read_value_dead.
  - answer (VBool false). unfold bind, set_position, read_driver_mode, bind.
    now rewrite read_value_dead.
  - answer (VBool false). unfold bind, set_max_speed.
    destruct ((value <? 0) || (value >? MAX_SPEED));
      [reflexivity | now rewrite set_speed_dead].
  - answer (VBool false). unfold bind, set_acceleration.
    destruct ((value <? 0) || (value >? MAX_ACCELERATION));
      [reflexivity | now rewrite set_speed_dead].
  - answer (VBool false). unfold bind, set_deceleration.
    destruct ((value <? 0) || (value >? MAX_ACCELERATION));
      [reflexivity | now rewrite set_speed_dead].
  - answer (VBool false).
    unfold bind, set_requested_speed, read_driver_mode, bind.
    now rewrite read_value_dead.
  - answer (VBool false).
    unfold bind, set_invert_direction, read_driver_mode, bind.
    now rewrite read_value_dead.
  - answer (VBool false). unfold bind, set_zero. now rewrite write_data_dead.
  - answer (VBool false). unfold bind, stop. now rewrite write_data_dead.
  - answer (VBool false). unfold bind, system_reset.
    now rewrite write_data_dead.
  - answer VNone. unfold bind. now rewrite read_current_dead.
  - answer (VBool false). unfold bind, set_current, bind, lift.
    destruct (py_int (123 * value)%float) as [tq|e]; [|discriminate].
    cbv zeta. destruct (halve_until_byte tq 3) as [tq' ai].
    now rewrite write_data_dead.
  - answer VNone. unfold bind. now rewrite read_speed_dead.
  - answer (VBool false). unfold bind. now rewrite set_speed_dead.
Qed.

(** C9 (amended). The constructor never raises, whatever the bus does. When
    the bus cannot be opened, or the loopback self-test run by the
    constructor answers [False], the session is left without bus handle, and
    from then on every operation other than [read_step_mode], [set_address]
    between equal addresses and a current setter given a NaN (for the
    register-level [set_current]: a value for which [int(123 * value)]
    raises) returns its failure result ([False] or [None]) without any bus
    call. [set_address] between equal addresses returns [True], also without
    any bus call. *)
Theorem failed_construction_fails_fast
    (smbus_SMBus : Z -> option Bus) (address : Z) (tr : list event) :
  exists self tr1,
    __init__ smbus_SMBus address tr = (Ret self, tr1) /\
    ((smbus_SMBus I2C_CHANNEL = None \/
      exists bus,
        smbus_SMBus I2C_CHANNEL = Some bus /\
        fst (loopback_read (under_construction bus address) tr) = Ret false) ->
     i2c_bus self = None /\
     (forall op tr',
        not_failing_fast op = false ->
        exists v, call self op tr' = (Ret v, tr') /\ is_failure v = true) /\
     (forall a tr',
        call self (Op_set_address a a) tr' = (Ret (VBool true), tr'))).
Proof.
  assert (Hdead : forall self, i2c_bus self = None ->
    i2c_bus self = None /\
    (forall op tr',
       not_failing_fast op = false ->
       exists v, call self op tr' = (Ret v, tr') /\ is_failure v = true) /\
    (forall a tr',
       call self (Op_set_address a a) tr' = (Ret (VBool true), tr'))).
  { intros self Hb. split; [assumption|]. split.
    - intros op tr' Hop. now apply call_dead.
    - intros a tr'. cbn [call]. unfold of_bool, bind, set_address.
      now rewrite Z.eqb_refl. }
  unfold __init__, try_except.
  destruct (smbus_SMBus I2C_CHANNEL) as [bus|] eqn:Hopen.
  - unfold bind. fold (under_construction bus address).
    destruct (loopback_read (under_construction bus address) tr)
      as [[[|]|e] tr1] eqn:Hloop.
    + exists (under_construction bus address), tr1. split; [reflexivity|].
      intros [Hnone | (bus' & Hsome & Hfail)]; [congruence|].
      assert (bus' = bus) by congruence. subst bus'.
      rewrite Hloop in Hfail. discriminate Hfail.
    + eexists _, tr1. split; [reflexivity|]. intros _. now apply Hdead.
    + destruct e; eexists _, tr1; (split; [reflexivity|]);
        intros _; now apply Hdead.
  - eexists _, tr. split; [reflexivity|]. intros _. now apply Hdead.
Qed.

Lemma failed_construction_fails_fast_witness :
  exists self tr1,
    __init__ (fun _ => Some silent_bus) 0x0a [] = (Ret self, tr1) /\
    i2c_bus self = None /\
    (forall op tr',
       not_failing_fast op = false ->
       exists v, call self op tr' = (Ret v, tr') /\ is_failure v = true) /\
    (forall a tr',
       call self (Op_set_address a a) tr' = (Ret (VBool true), tr')).
Proof.
  destruct (failed_construction_fails_fast (fun _ => Some silent_bus) 0x0a [])
    as (self & tr1 & Hinit & H).
  exists self, tr1. split; [exact Hinit|].
  apply H. right. exists silent_bus. split; reflexivity.
Defined.

(** C9 (as stated, refuted). After a construction whose self-test failed,
    [set_address(5, 5)] answers [True], which is not a failure result, and
    [read_step_mode] raises instead of returning. *)
Lemma dead_session_not_always_failing :
  __init__ (fun _ => Some silent_bus) 0x0a [] =
    (Ret dead_session, [EvWrite 0x0a 0x01 PROBE]) /\
  fst (loopback_read (under_construction silent_bus 0x0a) []) = Ret false /\
  call dead_session (Op_set_address 5 5) [] = (Ret (VBool true), []) /\
  is_failure (VBool true) = false /\
  call dead_session Op_read_step_mode [] = (Raise TypeError, []).
Proof. repeat split. Qed.

(* ------------------------------------------------------------------------- *)
(** ** Block transfers: guards and outcomes                                   *)
(* ------------------------------------------------------------------------- *)

(** X1. [write_data] never raises and makes at most one bus call: the write
    of the buffer (a bare number becomes a one-element list) to the
    register. A register outside [0x01..0x60] gives [False] with no bus
    call, and [True] is only ever returned after a bus call. *)
Theorem write_data_outcomes
    (self : PoStep256) (register : Z) (buffer : pyarg) (tr : list event) :
  exists ok suffix,
    write_data self register buffer tr = (Ret ok, tr ++ suffix) /\
    (suffix = [] \/
     exists addr,
       i2c_address self = Some addr /\ 0x01 <= register <= 0x60 /\
       suffix = [EvWrite addr register (arg_list buffer)]) /\
    (register < 0x01 \/ register > 0x60 -> ok = false /\ suffix = []) /\
    (ok = true -> suffix <> []).
Proof.
  unfold write_data, try_except, bind, write_i2c_block_data, ret.
  fold (arg_list buffer).
  destruct ((register <? 1) || (register >? 96)) eqn:Hg.
  - exists false, []. rewrite app_nil_r.
    split; [reflexivity|]. split; [now left|]. split; [auto|discriminate].
  - apply orb_false_iff in Hg. destruct Hg as [Hlo Hhi].
    apply Z.ltb_ge in Hlo. assert (Hhi' : register <= 96) by lia.
    destruct (i2c_bus self) as [bus|].
    + destruct (i2c_address self) as [addr|].
      * destruct (bus_write bus tr addr register (arg_list buffer)).
        -- exists true, [EvWrite addr register (arg_list buffer)].
           split; [reflexivity|]. split.
           ++ right. exists addr. repeat split; lia.
           ++ split; [lia|discriminate].
        -- exists false, [EvWrite addr register (arg_list buffer)].
           split; [reflexivity|]. split.
           ++ right. exists addr. repeat split; lia.
           ++ split; [lia|discriminate].
      * exists false, []. rewrite app_nil_r.
        split; [reflexivity|]. split; [now left|]. split; [lia|discriminate].
    + exists false, []. rewrite app_nil_r.
      split; [reflexivity|]. split; [now left|]. split; [lia|discriminate].
Qed.

(** X2. [read_data] never raises and makes at most one bus call. A register
    outside [0x01..0x60] or a length outside [1..5] gives [None] with no bus
    call; a reply is only ever returned after a read of exactly that
    register and length. *)
Theorem read_data_outcomes
    (self : PoStep256) (register length : Z) (tr : list event) :
  exists reply suffix,
    read_data self register length tr = (Ret reply, tr ++ suffix) /\
    (suffix = [] \/
     exists addr,
       i2c_address self = Some addr /\ 0x01 <= register <= 0x60 /\
       1 <= length <= 5 /\ suffix = [EvRead addr register length]) /\
    ((register < 0x01 \/ register > 0x60) \/ (length < 1 \/ length > 5) ->
     reply = None /\ suffix = []) /\
    (reply <> None -> suffix <> []).
Proof.
  unfold read_data, try_except, bind, read_i2c_block_data, ret,
    MAX_BUFFER_LENGTH.
  destruct ((register <? 1) || (register >? 96)) eqn:Hg.
  { exists None, []. rewrite app_nil_r.
    split; [reflexivity|]. split; [now left|]. split; [auto|congruence]. }
  destruct ((length <? 1) || (length >? 5)) eqn:Hl.
  { exists None, []. rewrite app_nil_r.
    split; [reflexivity|]. split; [now left|]. split; [auto|congruence]. }
  apply orb_false_iff in Hg, Hl. destruct Hg as [Hg1 Hg2], Hl as [Hl1 Hl2].
  apply Z.ltb_ge in Hg1, Hl1.
  assert (register <= 96 /\ length <= 5) as [Hg3 Hl3] by lia.
  replace (length =? 0) with false by (symmetry; apply Z.eqb_neq; lia).
  cbn [negb].
  destruct (i2c_bus self) as [bus|].
  - destruct (i2c_address self) as [addr|].
    + destruct (bus_read bus tr addr register length) as [data|].
      * exists (Some data), [EvRead addr register length].
        split; [reflexivity|]. split.
        -- right. exists addr. repeat split; lia.
        -- split; [lia|discriminate].
      * exists None, [EvRead addr register length].
        split; [reflexivity|]. split.
        -- right. exists addr. repeat split; lia.
        -- split; [lia|discriminate].
    + exists None, []. rewrite app_nil_r.
      split; [reflexivity|]. split; [now left|]. split; [lia|congruence].
  - exists None, []. rewrite app_nil_r.
    split; [reflexivity|]. split; [now left|]. split; [lia|congruence].
Qed.

(* ------------------------------------------------------------------------- *)
(** ** The byte buffer over the whole 32-bit range                            *)
(* ------------------------------------------------------------------------- *)

Lemma land_ones_bounds v n : 0 <= n -> 0 <= Z.land v (Z.ones n) < 2 ^ n.
Proof.
  intros Hn. rewrite Z.land_ones by lia. apply Z.mod_pos_bound.
  apply Z.pow_pos_nonneg; lia.
Qed.

(** X3. On [0..4294967295] the buffer holds 1, 2 or 4 elements (4 from
    65536 on), each element is a byte, and reading the buffer as a
    big-endian number gives the value back. *)
Theorem convert_to_byte_buffer_round_trip (v : Z) :
  0 <= v <= 4294967295 ->
  Forall (fun b => 0 <= b <= 255) (convert_to_byte_buffer v) /\
  decode_big_endian (convert_to_byte_buffer v) = v /\
  length (convert_to_byte_buffer v) =
    (if v <=? 255 then 1%nat else if v <=? 65535 then 2%nat else 4%nat).
Proof.
  intros Hv. unfold convert_to_byte_buffer.
  destruct (v <=? 255) eqn:H1; [apply Z.leb_le in H1 | apply Z.leb_gt in H1].
  { split; [repeat constructor; lia|]. split; [|reflexivity].
    cbv [decode_big_endian fold_left]. lia. }
  destruct (v <=? 65535) eqn:H2; [apply Z.leb_le in H2 | apply Z.leb_gt in H2].
  { cbv zeta. split; [|split; [|reflexivity]].
    - pose proof (shiftr_bounds v 8 8
                    ltac:(change (2 ^ (8 + 8)) with 65536; lia)
                    ltac:(lia) ltac:(lia)) as Hs.
      pose proof (land_ones_bounds v 8 ltac:(lia)) as Hl.
      change (2 ^ 8) with 256 in Hs, Hl. change (Z.ones 8) with 255 in Hl.
      repeat constructor; lia.
    - cbv [decode_big_endian fold_left]. rewrite Z.mul_0_l, Z.add_0_l.
      apply split_high_low. }
  replace (v <=? 4294967295) with true by (symmetry; apply Z.leb_le; lia).
  cbv zeta. change (8 * 3) with 24. change (8 * 2) with 16.
  change 16777215 with (Z.ones 24). change 65535 with (Z.ones 16).
  change (Z.land v 255) with (Z.land v (Z.ones 8)).
  rewrite !Z.land_ones, !Z.shiftr_div_pow2 by lia.
  change (2 ^ 24) with 16777216. change (2 ^ 16) with 65536.
  change (2 ^ 8) with 256.
  split; [|split; [|reflexivity]].
  - repeat constructor; Z.div_mod_to_equations; lia.
  - cbv [decode_big_endian fold_left]. Z.div_mod_to_equations. lia.
Qed.

Lemma convert_to_byte_buffer_round_trip_witness :
  Forall (fun b => 0 <= b <= 255) (convert_to_byte_buffer 70000) /\
  decode_big_endian (convert_to_byte_buffer 70000) = 70000 /\
  length (convert_to_byte_buffer 70000) = 4%nat.
Proof. apply (convert_to_byte_buffer_round_trip 70000). lia. Defined.

(* ------------------------------------------------------------------------- *)
(** ** Setters behind the mode query                                          *)
(* ------------------------------------------------------------------------- *)

Lemma read_driver_mode_reports self bus addr tr mode :
  functional self bus addr ->
  reports_mode bus addr tr mode ->
  read_driver_mode self tr =
    (Ret (Some (int_of_byte mode)), tr ++ mode_query addr).
Proof.
  intros Hf [Hw [more Hr]]. unfold read_driver_mode.
  rewrite (read_value_live _ _ _ _ _ Hf) by lia.
  rewrite Hw. cbv zeta. rewrite Hr. unfold mode_query.
  now rewrite <- app_assoc.
Qed.

Lemma set_position_live self bus addr tr mode v :
  functional self bus addr ->
  reports_mode bus addr tr mode ->
  int_of_byte mode = MODE_POSITION_CONT \/
  int_of_byte mode = MODE_BINX_BUTTONS ->
  let payload := pad_to_four (rev (convert_to_byte_buffer v)) in
  set_position self v tr =
    (Ret (bus_write bus (tr ++ mode_query addr) addr 0x50 payload),
     tr ++ mode_query addr ++ [EvWrite addr 0x50 payload]).
Proof.
  intros Hf Hm Hgate payload. unfold set_position, bind.
  rewrite (read_driver_mode_reports _ _ _ _ _ Hf Hm).
  replace (mode_differs (Some (int_of_byte mode)) MODE_POSITION_CONT
           && mode_differs (Some (int_of_byte mode)) MODE_BINX_BUTTONS)
    with false
    by (unfold mode_differs; destruct Hgate as [-> | ->]; reflexivity).
  rewrite (write_data_live _ _ _ _ _ _ Hf) by lia.
  cbn [arg_list]. now rewrite <- app_assoc.
Qed.

(** X4. Outside [0..4294967295] [set_position] still writes, once the mode
    query lets it through: a value above the range is sent as four zero
    bytes (the empty buffer padded), and a negative value [v] is sent as
    [[v, 0, 0, 0]], with [v] itself as first element. *)
Theorem set_position_outside_range
    (self : PoStep256) (bus : Bus) (addr : Z) (tr : list event)
    (mode : byte) (v : Z) :
  functional self bus addr ->
  reports_mode bus addr tr mode ->
  int_of_byte mode = MODE_POSITION_CONT \/
  int_of_byte mode = MODE_BINX_BUTTONS ->
  (v > 4294967295 ->
   snd (set_position self v tr) =
     tr ++ mode_query addr ++ [EvWrite addr 0x50 [0; 0; 0; 0]]) /\
  (v < 0 ->
   snd (set_position self v tr) =
     tr ++ mode_query addr ++ [EvWrite addr 0x50 [v; 0; 0; 0]]).
Proof.
  intros Hf Hm Hgate.
  rewrite (set_position_live _ _ _ _ _ v Hf Hm Hgate). cbv zeta. cbn [snd].
  rewrite pad_to_four_repeat. unfold convert_to_byte_buffer. split; intros Hv.
  - replace (v <=? 255) with false by (symmetry; apply Z.leb_gt; lia).
    replace (v <=? 65535) with false by (symmetry; apply Z.leb_gt; lia).
    replace (v <=? 4294967295) with false by (symmetry; apply Z.leb_gt; lia).
    reflexivity.
  - replace (v <=? 255) with true by (symmetry; apply Z.leb_le; lia).
    reflexivity.
Qed.

Lemma set_position_outside_range_witness :
  snd (set_position (session_on (echo_bus x04)) 4294967296 []) =
    [] ++ mode_query 0x0a ++ [EvWrite 0x0a 0x50 [0; 0; 0; 0]] /\
  snd (set_position (session_on (echo_bus x04)) (-1) []) =
    [] ++ mode_query 0x0a ++ [EvWrite 0x0a 0x50 [-1; 0; 0; 0]].
Proof.
  assert (Hf : functional (session_on (echo_bus x04)) (echo_bus x04) 0x0a)
    by (split; reflexivity).
  assert (Hm : reports_mode (echo_bus x04) 0x0a [] x04)
    by (split; [reflexivity | exists []; reflexivity]).
  split.
  - apply (proj1 (set_position_outside_range _ _ _ _ _ 4294967296 Hf Hm
                    (or_introl eq_refl))). lia.
  - apply (proj2 (set_position_outside_range _ _ _ _ _ (-1) Hf Hm
                    (or_introl eq_refl))). lia.
Defined.

(** X5. [set_position] writes nothing to register [0x50] unless the mode
    query answers position-control or button mode: with any other answer it
    returns [False] after the two calls of the query; when the
    register-select write of the query fails, or its read fails, it returns
    [False] as well. *)
Theorem set_position_refused
    (self : PoStep256) (bus : Bus) (addr : Z) (tr : list event) (v : Z) :
  functional self bus addr ->
  (forall mode,
     reports_mode bus addr tr mode ->
     int_of_byte mode <> MODE_POSITION_CONT ->
     int_of_byte mode <> MODE_BINX_BUTTONS ->
     set_position self v tr = (Ret false, tr ++ mode_query addr)) /\
  (bus_write bus tr addr 0x14 [] = false ->
   set_position self v tr = (Ret false, tr ++ [EvWrite addr 0x14 []])) /\
  (bus_write bus tr addr 0x14 [] = true ->
   bus_read bus (tr ++ [EvWrite addr 0x14 []]) addr 0x14 1 = None ->
   set_position self v tr = (Ret false, tr ++ mode_query addr)).
Proof.
  intros Hf. split; [|split].
  - intros mode Hm H4 H5. unfold set_position, bind.
    rewrite (read_driver_mode_reports _ _ _ _ _ Hf Hm).
    unfold mode_differs.
    replace (int_of_byte mode =? MODE_POSITION_CONT) with false
      by (symmetry; now apply Z.eqb_neq).
    replace (int_of_byte mode =? MODE_BINX_BUTTONS) with false
      by (symmetry; now apply Z.eqb_neq).
    reflexivity.
  - intros Hw. unfold set_position, read_driver_mode, bind.
    rewrite (read_value_live _ _ _ _ _ Hf) by lia. now rewrite Hw.
  - intros Hw Hr. unfold set_position, read_driver_mode, bind.
    rewrite (read_value_live _ _ _ _ _ Hf) by lia.
    rewrite Hw. cbv zeta. rewrite Hr. cbn. unfold ret, mode_query.
    now rewrite <- app_assoc.
Qed.

Lemma set_position_refused_witness :
  set_position (session_on (echo_bus x06)) 1000 [] =
    (Ret false, [] ++ mode_query 0x0a) /\
  set_position (session_on silent_bus) 1000 [] =
    (Ret false, [] ++ [EvWrite 0x0a 0x14 []]).
Proof.
  split.
  - apply (proj1 (set_position_refused (session_on (echo_bus x06))
                    (echo_bus x06) 0x0a [] 1000 (conj eq_refl eq_refl)) x06).
    + split; [reflexivity | exists []; reflexivity].
    + discriminate.
    + discriminate.
  - apply (proj1 (proj2 (set_position_refused (session_on silent_bus)
                           silent_bus 0x0a [] 1000 (conj eq_refl eq_refl)))).
    reflexivity.
Defined.

(** X6. In the setters behind the mode query the range check comes second:
    with the device in [MODE_AUTO], an out-of-range requested speed or
    invert flag is answered [False] only after the two bus calls of the
    query have been made, and nothing else is sent. *)
Theorem gated_range_check_follows_query
    (self : PoStep256) (bus : Bus) (addr : Z) (tr : list event)
    (mode : byte) (v : Z) :
  functional self bus addr ->
  reports_mode bus addr tr mode ->
  int_of_byte mode = MODE_AUTO ->
  (v < 0 \/ v > 60000 ->
   set_requested_speed self v tr = (Ret false, tr ++ mode_query addr)) /\
  (v < 0 \/ v > 1 ->
   set_invert_direction self v tr = (Ret false, tr ++ mode_query addr)).
Proof.
  intros Hf Hm Hauto. split; intros Hv.
  - unfold set_requested_speed, bind.
    rewrite (read_driver_mode_reports _ _ _ _ _ Hf Hm).
    unfold mode_differs. rewrite Hauto. cbn [MODE_AUTO Z.eqb Pos.eqb negb].
    unfold MAX_SPEED.
    replace ((v <? 0) || (v >? 60000)) with true
      by (symmetry; apply orb_true_iff; lia).
    reflexivity.
  - unfold set_invert_direction, bind.
    rewrite (read_driver_mode_reports _ _ _ _ _ Hf Hm).
    unfold mode_differs. rewrite Hauto. cbn [MODE_AUTO Z.eqb Pos.eqb negb].
    replace ((v <? 0) || (v >? 1)) with true
      by (symmetry; apply orb_true_iff; lia).
    reflexivity.
Qed.

Lemma gated_range_check_follows_query_witness :
  set_requested_speed (session_on (echo_bus x06)) 60001 [] =
    (Ret false, [] ++ mode_query 0x0a) /\
  set_invert_direction (session_on (echo_bus x06)) 2 [] =
    (Ret false, [] ++ mode_query 0x0a).
Proof.
  assert (Hf : functional (session_on (echo_bus x06)) (echo_bus x06) 0x0a)
    by (split; reflexivity).
  assert (Hm : reports_mode (echo_bus x06) 0x0a [] x06)
    by (split; [reflexivity | exists []; reflexivity]).
  split.
  - apply (proj1 (gated_range_check_follows_query _ _ _ _ _ 60001 Hf Hm
                    eq_refl)). lia.
  - apply (proj2 (gated_range_check_follows_query _ _ _ _ _ 2 Hf Hm
                    eq_refl)). lia.
Defined.

(** X7. [set_invert_direction(v)] with [v] 0 or 1 and the device in
    [MODE_AUTO] writes the single byte [[v]] to register [0x55] (no padding
    to two bytes, unlike the speed setters) and returns the answer of that
    write; with the device in any other mode it returns [False] and sends
    nothing beyond the query. *)
Theorem set_invert_direction_outcomes
    (self : PoStep256) (bus : Bus) (addr : Z) (tr : list event)
    (mode : byte) (v : Z) :
  functional self bus addr ->
  reports_mode bus addr tr mode ->
  (int_of_byte mode = MODE_AUTO -> 0 <= v <= 1 ->
   set_invert_direction self v tr =
     (Ret (bus_write bus (tr ++ mode_query addr) addr 0x55 [v]),
      tr ++ mode_query addr ++ [EvWrite addr 0x55 [v]])) /\
  (int_of_byte mode <> MODE_AUTO ->
   set_invert_direction self v tr = (Ret false, tr ++ mode_query addr)).
Proof.
  intros Hf Hm. split.
  - intros Hauto Hv. unfold set_invert_direction, bind.
    rewrite (read_driver_mode_reports _ _ _ _ _ Hf Hm).
    unfold mode_differs. rewrite Hauto. cbn [MODE_AUTO Z.eqb Pos.eqb negb].
    replace ((v <? 0) || (v >? 1)) with false
      by (symmetry; apply orb_false_iff; lia).
    unfold convert_to_byte_buffer.
    replace (v <=? 255) with true by (symmetry; apply Z.leb_le; lia).
    rewrite (write_data_live _ _ _ _ _ _ Hf) by lia.
    cbn [arg_list]. now rewrite <- app_assoc.
  - intros Hother. unfold set_invert_direction, bind.
    rewrite (read_driver_mode_reports _ _ _ _ _ Hf Hm).
    unfold mode_differs.
    replace (int_of_byte mode =? MODE_AUTO) with false
      by (symmetry; now apply Z.eqb_neq).
    reflexivity.
Qed.

Lemma set_invert_direction_outcomes_witness :
  set_invert_direction (session_on (echo_bus x06)) 1 [] =
    (Ret true, [] ++ mode_query 0x0a ++ [EvWrite 0x0a 0x55 [1]]) /\
  set_invert_direction (session_on (echo_bus x01)) 1 [] =
    (Ret false, [] ++ mode_query 0x0a).
Proof.
  split.
  - apply (proj1 (set_invert_direction_outcomes
                    (session_on (echo_bus x06)) (echo_bus x06) 0x0a [] x06 1
                    (conj eq_refl eq_refl)
                    (conj eq_refl (ex_intro _ [] eq_refl))));
      [reflexivity | lia].
  - apply (proj2 (set_invert_direction_outcomes
                    (session_on (echo_bus x01)) (echo_bus x01) 0x0a [] x01 1
                    (conj eq_refl eq_refl)
                    (conj eq_refl (ex_intro _ [] eq_refl)))).
    discriminate.
Defined.

(** X8. [set_driver_mode] stops and zeroes the motor before it looks at its
    argument: for [MODE_DEFAULT] the three writes are made with payload
    [[0x01]] on register [0x05], and for any value that is neither mode the
    stop and zero writes are still made and [False] is returned without a
    mode write. *)
Theorem set_driver_mode_other_values
    (self : PoStep256) (bus : Bus) (addr : Z) (tr : list event) (value : Z) :
  functional self bus addr ->
  let tr2 := tr ++ [EvWrite addr 0x5f []; EvWrite addr 0x5e []] in
  (value = MODE_DEFAULT ->
   set_driver_mode self value tr =
     (Ret (bus_write bus tr2 addr 0x05 [0x01]),
      tr2 ++ [EvWrite addr 0x05 [0x01]])) /\
  (value <> MODE_AUTO -> value <> MODE_DEFAULT ->
   set_driver_mode self value tr = (Ret false, tr2)).
Proof.
  intros Hf tr2. subst tr2.
  unfold set_driver_mode, stop, set_zero, bind.
  rewrite (write_data_live _ _ _ _ _ _ Hf) by lia.
  rewrite (write_data_live _ _ _ _ _ _ Hf) by lia.
  cbn [arg_list]. rewrite <- !app_assoc. cbn [app]. split.
  - intros ->. cbn [MODE_DEFAULT MODE_AUTO Z.eqb Pos.eqb orb].
    rewrite (write_data_live _ _ _ _ _ _ Hf) by lia.
    cbn [arg_list]. rewrite <- app_assoc. reflexivity.
  - intros Ha Hd.
    replace (value =? MODE_AUTO) with false by (symmetry; now apply Z.eqb_neq).
    replace (value =? MODE_DEFAULT) with false
      by (symmetry; now apply Z.eqb_neq).
    reflexivity.
Qed.

Lemma set_driver_mode_other_values_witness :
  set_driver_mode (session_on (echo_bus x06)) MODE_POSITION_CONT [] =
    (Ret false, [] ++ [EvWrite 0x0a 0x5f []; EvWrite 0x0a 0x5e []]).
Proof.
  apply (proj2 (set_driver_mode_other_values (session_on (echo_bus x06))
                  (echo_bus x06) 0x0a [] MODE_POSITION_CONT
                  (conj eq_refl eq_refl))); discriminate.
Defined.

(* ------------------------------------------------------------------------- *)
(** ** Reads: one-byte registers, decoded registers                           *)
(* ------------------------------------------------------------------------- *)

Lemma int_of_byte_bounds (b : byte) : 0 <= int_of_byte b <= 255.
Proof.
  unfold int_of_byte. pose proof (Byte.to_N_bounded b) as H.
  apply N2Z.inj_le in H. change (Z.of_N 255) with 255 in H.
  pose proof (N2Z.is_nonneg (Byte.to_N b)). lia.
Qed.

(** X9. A one-byte read ([read_value], behind [read_pin_statuses],
    [read_driver_status], [read_driver_mode], [read_temperature_limit],
    [read_faults] and [read_auto_run_invert_direction_status]) first writes
    the bare register number. If that write fails it returns [None] and no
    read is attempted. Otherwise it reads one byte: a failed read gives
    [None], an empty reply raises [IndexError], and any other reply gives
    its first element, a number in [0..255]. *)
Theorem read_value_outcomes
    (self : PoStep256) (bus : Bus) (addr : Z) (register : Z)
    (tr : list event) :
  functional self bus addr ->
  0x01 <= register <= 0x60 ->
  let tr1 := tr ++ [EvWrite addr register []] in
  (bus_write bus tr addr register [] = false ->
   read_value self register tr = (Ret None, tr1)) /\
  (bus_write bus tr addr register [] = true ->
   snd (read_value self register tr) = tr1 ++ [EvRead addr register 1] /\
   (bus_read bus tr1 addr register 1 = None ->
    fst (read_value self register tr) = Ret None) /\
   (bus_read bus tr1 addr register 1 = Some [] ->
    fst (read_value self register tr) = Raise IndexError) /\
   (forall b more,
      bus_read bus tr1 addr register 1 = Some (b :: more) ->
      fst (read_value self register tr) = Ret (Some (int_of_byte b)) /\
      0 <= int_of_byte b <= 255)).
Proof.
  intros Hf Hr tr1. subst tr1.
  rewrite (read_value_live _ _ _ _ _ Hf Hr). split; intros Hw; rewrite Hw.
  - reflexivity.
  - cbv zeta. split; [reflexivity|]. cbn [fst].
    split; [|split].
    + now intros ->.
    + now intros ->.
    + intros b more ->. split; [reflexivity | apply int_of_byte_bounds].
Qed.

Lemma read_value_outcomes_witness :
  read_value (session_on silent_bus) 0x13 [] =
    (Ret None, [] ++ [EvWrite 0x0a 0x13 []]) /\
  fst (read_value (session_on (echo_bus x2a)) 0x13 []) = Ret (Some 42).
Proof.
  split.
  - apply (proj1 (read_value_outcomes (session_on silent_bus) silent_bus
                    0x0a 0x13 [] (conj eq_refl eq_refl) ltac:(lia))).
    reflexivity.
  - destruct (read_value_outcomes (session_on (echo_bus x2a)) (echo_bus x2a)
                0x0a 0x13 [] (conj eq_refl eq_refl) ltac:(lia))
      as [_ H].
    destruct (H eq_refl) as (_ & _ & _ & Hb).
    apply (Hb x2a []). reflexivity.
Defined.

(** X10. [read_step_mode] has no failure result: when the register-select
    write fails, or the read fails, it raises [TypeError] (the mask is
    applied to [None]). When a byte comes back it returns its low four
    bits, a number in [0..15]. *)
Theorem read_step_mode_outcomes
    (self : PoStep256) (bus : Bus) (addr : Z) (tr : list event) :
  functional self bus addr ->
  let tr1 := tr ++ [EvWrite addr 0x23 []] in
  (bus_write bus tr addr 0x23 [] = false ->
   read_step_mode self tr = (Raise TypeError, tr1)) /\
  (bus_write bus tr addr 0x23 [] = true ->
   bus_read bus tr1 addr 0x23 1 = None ->
   fst (read_step_mode self tr) = Raise TypeError) /\
  (forall b more,
     bus_write bus tr addr 0x23 [] = true ->
     bus_read bus tr1 addr 0x23 1 = Some (b :: more) ->
     fst (read_step_mode self tr) = Ret (Z.land (int_of_byte b) 0x0f) /\
     0 <= Z.land (int_of_byte b) 0x0f <= 15).
Proof.
  intros Hf tr1. subst tr1. unfold read_step_mode, bind.
  rewrite (read_value_live _ _ _ _ _ Hf) by lia.
  split; [|split].
  - now intros ->.
  - intros -> Hr. cbv zeta. now rewrite Hr.
  - intros b more -> Hr. cbv zeta. rewrite Hr. split; [reflexivity|].
    pose proof (land_ones_bounds (int_of_byte b) 4 ltac:(lia)) as H.
    change (Z.ones 4) with 15 in H. change (2 ^ 4) with 16 in H. lia.
Qed.

Lemma read_step_mode_outcomes_witness :
  read_step_mode (session_on silent_bus) [] =
    (Raise TypeError, [] ++ [EvWrite 0x0a 0x23 []]) /\
  fst (read_step_mode (session_on (echo_bus xf3)) []) = Ret 3.
Proof.
  split.
  - apply (proj1 (read_step_mode_outcomes (session_on silent_bus) silent_bus
                    0x0a [] (conj eq_refl eq_refl))).
    reflexivity.
  - apply (proj2 (proj2 (read_step_mode_outcomes (session_on (echo_bus xf3))
                           (echo_bus xf3) 0x0a [] (conj eq_refl eq_refl)))
             xf3 []); reflexivity.
Defined.

Lemma as_signed_bounds bits u :
  1 <= bits -> 0 <= u < 2 ^ bits ->
  - 2 ^ (bits - 1) <= as_signed bits u < 2 ^ (bits - 1).
Proof.
  intros Hb Hu. unfold as_signed.
  assert (Hp : 2 ^ bits = 2 * 2 ^ (bits - 1)).
  { replace bits with (1 + (bits - 1)) at 1 by lia.
    rewrite Z.pow_add_r by lia. reflexivity. }
  destruct (u <? 2 ^ (bits - 1)) eqn:Hlt;
    [apply Z.ltb_lt in Hlt | apply Z.ltb_ge in Hlt]; lia.
Qed.

Lemma struct_unpack_signed_exact (width : nat) (bs : list byte) :
  length bs = width -> (1 <= width)%nat ->
  struct_unpack_signed width bs =
    Ret (as_signed (8 * Z.of_nat width) (le_unsigned bs)).
Proof.
  intros Hlen Hw. unfold struct_unpack_signed, as_signed.
  rewrite Hlen, Nat.eqb_refl.
  replace (2 * 2 ^ (8 * Z.of_nat width - 1)) with (2 ^ (8 * Z.of_nat width)).
  - reflexivity.
  - replace (8 * Z.of_nat width) with (Z.succ (8 * Z.of_nat width - 1)) at 1
      by lia.
    apply Z.pow_succ_r. lia.
Qed.

Lemma read_speed_two_bytes self bus addr register tr b0 b1 :
  functional self bus addr ->
  0x01 <= register <= 0x60 ->
  bus_write bus tr addr register [] = true ->
  bus_read bus (tr ++ [EvWrite addr register []]) addr register 2
    = Some [b0; b1] ->
  fst (read_speed self register tr) =
    Ret (Some (as_signed 16 (int_of_byte b0 + 256 * int_of_byte b1))).
Proof.
  intros Hf Hr Hw Hrep. unfold read_speed, bind.
  rewrite (write_data_live _ _ _ _ _ _ Hf Hr). cbn [arg_list].
  rewrite Hw. cbn [negb].
  rewrite (read_data_live _ _ _ _ _ _ Hf Hr) by lia. rewrite Hrep.
  unfold unpack_reply, lift.
  rewrite (struct_unpack_signed_exact 2 [b0; b1]) by (reflexivity || lia).
  replace (le_unsigned [b0; b1])
    with (int_of_byte b0 + 256 * int_of_byte b1)
    by (cbn [le_unsigned]; lia).
  reflexivity.
Qed.

Lemma read_position_four_bytes self bus addr tr b0 b1 b2 b3 :
  functional self bus addr ->
  bus_write bus tr addr 0x40 [] = true ->
  bus_read bus (tr ++ [EvWrite addr 0x40 []]) addr 0x40 4
    = Some [b0; b1; b2; b3] ->
  fst (read_position self tr) =
    Ret (Some (as_signed 32 (le_unsigned [b0; b1; b2; b3]))).
Proof.
  intros Hf Hw Hrep. unfold read_position, bind.
  rewrite (write_data_live _ _ _ _ _ _ Hf) by lia. cbn [arg_list].
  rewrite Hw. cbn [negb].
  rewrite (read_data_live _ _ _ _ _ _ Hf) by lia. rewrite Hrep.
  unfold unpack_reply, lift.
  rewrite (struct_unpack_signed_exact 4 [b0; b1; b2; b3])
    by (reflexivity || lia).
  reflexivity.
Qed.

(** X11. A speed-class read ([read_speed], behind [read_max_speed],
    [read_acceleration], [read_deceleration], [read_current_speed] and
    [read_requested_speed]) returns [None] when the register-select write
    fails, without reading. After a successful select it has no failure
    result: a failed read raises [TypeError] and a reply that is not two
    bytes long raises [StructError]. A two-byte reply [[b0, b1]] is decoded
    as the signed 16-bit little-endian number, in [-32768..32767]. *)
Theorem read_speed_outcomes
    (self : PoStep256) (bus : Bus) (addr : Z) (register : Z)
    (tr : list event) :
  functional self bus addr ->
  0x01 <= register <= 0x60 ->
  let tr1 := tr ++ [EvWrite addr register []] in
  (bus_write bus tr addr register [] = false ->
   read_speed self register tr = (Ret None, tr1)) /\
  (bus_write bus tr addr register [] = true ->
   (bus_read bus tr1 addr register 2 = None ->
    fst (read_speed self register tr) = Raise TypeError) /\
   (forall reply,
      bus_read bus tr1 addr register 2 = Some reply ->
      length reply <> 2%nat ->
      fst (read_speed self register tr) = Raise StructError) /\
   (forall b0 b1,
      bus_read bus tr1 addr register 2 = Some [b0; b1] ->
      let z := as_signed 16 (int_of_byte b0 + 256 * int_of_byte b1) in
      fst (read_speed self register tr) = Ret (Some z) /\
      -32768 <= z <= 32767)).
Proof.
  intros Hf Hr tr1. subst tr1. unfold read_speed, bind.
  rewrite (write_data_live _ _ _ _ _ _ Hf Hr). cbn [arg_list].
  split; intros Hw; rewrite Hw; cbn [negb]; [reflexivity|].
  rewrite (read_data_live _ _ _ _ _ _ Hf Hr) by lia.
  split; [|split].
  - now intros ->.
  - intros reply -> Hlen. unfold unpack_reply, lift, struct_unpack_signed.
    replace (Nat.eqb (length reply) 2) with false
      by (symmetry; now apply Nat.eqb_neq).
    reflexivity.
  - intros b0 b1 Hrep. rewrite Hrep. cbv zeta.
    pose proof (int_of_byte_bounds b0). pose proof (int_of_byte_bounds b1).
    split.
    + unfold unpack_reply, lift.
      rewrite (struct_unpack_signed_exact 2 [b0; b1]) by (reflexivity || lia).
      replace (le_unsigned [b0; b1])
        with (int_of_byte b0 + 256 * int_of_byte b1)
        by (cbn [le_unsigned]; lia).
      reflexivity.
    + pose proof (as_signed_bounds 16 (int_of_byte b0 + 256 * int_of_byte b1)
                    ltac:(lia)
                    ltac:(change (2 ^ 16) with 65536; lia)) as Hs.
      change (2 ^ (16 - 1)) with 32768 in Hs. lia.
Qed.

Lemma read_speed_outcomes_witness :
  read_speed (session_on silent_bus) 0x44 [] =
    (Ret None, [] ++ [EvWrite 0x0a 0x44 []]) /\
  fst (read_speed (session_on (echo_bus xff)) 0x44 []) = Ret (Some (-1)).
Proof.
  split.
  - apply (proj1 (read_speed_outcomes (session_on silent_bus) silent_bus
                    0x0a 0x44 [] (conj eq_refl eq_refl) ltac:(lia))).
    reflexivity.
  - destruct (read_speed_outcomes (session_on (echo_bus xff)) (echo_bus xff)
                0x0a 0x44 [] (conj eq_refl eq_refl) ltac:(lia))
      as [_ H].
    destruct (H eq_refl) as (_ & _ & Hb).
    apply (Hb xff xff). reflexivity.
Defined.

(** X12. [read_position] returns [None] when the register-select write on
    [0x40] fails. After a successful select a failed read raises
    [TypeError], a reply that is not four bytes long raises [StructError],
    and a four-byte reply is decoded as the signed 32-bit little-endian
    number, in [-2147483648..2147483647]. *)
Theorem read_position_outcomes
    (self : PoStep256) (bus : Bus) (addr : Z) (tr : list event) :
  functional self bus addr ->
  let tr1 := tr ++ [EvWrite addr 0x40 []] in
  (bus_write bus tr addr 0x40 [] = false ->
   read_position self tr = (Ret None, tr1)) /\
  (bus_write bus tr addr 0x40 [] = true ->
   (bus_read bus tr1 addr 0x40 4 = None ->
    fst (read_position self tr) = Raise TypeError) /\
   (forall reply,
      bus_read bus tr1 addr 0x40 4 = Some reply ->
      length reply <> 4%nat ->
      fst (read_position self tr) = Raise StructError) /\
   (forall b0 b1 b2 b3,
      bus_read bus tr1 addr 0x40 4 = Some [b0; b1; b2; b3] ->
      let z := as_signed 32 (le_unsigned [b0; b1; b2; b3]) in
      fst (read_position self tr) = Ret (Some z) /\
      -2147483648 <= z <= 2147483647)).
Proof.
  intros Hf tr1. subst tr1. unfold read_position, bind.
  rewrite (write_data_live _ _ _ _ _ _ Hf) by lia. cbn [arg_list].
  split; intros Hw; rewrite Hw; cbn [negb]; [reflexivity|].
  rewrite (read_data_live _ _ _ _ _ _ Hf) by lia.
  split; [|split].
  - now intros ->.
  - intros reply -> Hlen. unfold unpack_reply, lift, struct_unpack_signed.
    replace (Nat.eqb (length reply) 4) with false
      by (symmetry; now apply Nat.eqb_neq).
    reflexivity.
  - intros b0 b1 b2 b3 Hrep. rewrite Hrep. cbv zeta.
    unfold unpack_reply, lift.
    rewrite (struct_unpack_signed_exact 4 [b0; b1; b2; b3])
      by (reflexivity || lia).
    split; [reflexivity|].
    pose proof (int_of_byte_bounds b0). pose proof (int_of_byte_bounds b1).
    pose proof (int_of_byte_bounds b2). pose proof (int_of_byte_bounds b3).
    pose proof (as_signed_bounds 32 (le_unsigned [b0; b1; b2; b3])
                  ltac:(lia)
                  ltac:(change (2 ^ 32) with 4294967296;
                        cbn [le_unsigned]; lia)) as Hs.
    change (2 ^ (32 - 1)) with 2147483648 in Hs.
    change (8 * Z.of_nat 4) with 32. lia.
Qed.

Lemma read_position_outcomes_witness :
  read_position (session_on silent_bus) [] =
    (Ret None, [] ++ [EvWrite 0x0a 0x40 []]) /\
  fst (read_position (session_on (echo_bus xff)) []) = Ret (Some (-1)).
Proof.
  split.
  - apply (proj1 (read_position_outcomes (session_on silent_bus) silent_bus
                    0x0a [] (conj eq_refl eq_refl))).
    reflexivity.
  - destruct (read_position_outcomes (session_on (echo_bus xff))
                (echo_bus xff) 0x0a [] (conj eq_refl eq_refl)) as [_ H].
    destruct (H eq_refl) as (_ & _ & Hb).
    apply (Hb xff xff xff xff). reflexivity.
Defined.

(* ------------------------------------------------------------------------- *)
(** ** Writing a value and reading it back                                    *)
(* ------------------------------------------------------------------------- *)

(** X13. Speed write and read do not agree on the sign. For
    [0 <= v <= 65535], [set_speed] sends the two bytes
    [[v & 0xFF, v >> 8]]; if the device answers a speed read with these two
    bytes, [read_speed] returns [v] only up to 32767, and [v - 65536] for a
    larger value. *)
Theorem speed_read_back
    (self : PoStep256) (bus : Bus) (addr : Z) (register : Z)
    (tr : list event) (v : Z) (b0 b1 : byte) :
  functional self bus addr ->
  0x01 <= register <= 0x60 ->
  0 <= v <= 65535 ->
  [int_of_byte b0; int_of_byte b1] = [Z.land v 0xff; Z.shiftr v 8] ->
  bus_write bus tr addr register [] = true ->
  bus_read bus (tr ++ [EvWrite addr register []]) addr register 2
    = Some [b0; b1] ->
  (forall target tr',
     0x01 <= target <= 0x60 ->
     snd (set_speed self target v tr') =
       tr' ++ [EvWrite addr target [int_of_byte b0; int_of_byte b1]]) /\
  fst (read_speed self register tr) =
    Ret (Some (if v <=? 32767 then v else v - 65536)).
Proof.
  intros Hf Hr Hv Hbytes Hw Hrep. split.
  - intros target tr' Ht. rewrite Hbytes.
    now rewrite (set_speed_live _ _ _ _ _ _ Hf) by lia.
  - injection Hbytes as H0 H1.
    rewrite (read_speed_two_bytes _ _ _ _ _ _ _ Hf Hr Hw Hrep), H0, H1.
    replace (Z.land v 255 + 256 * Z.shiftr v 8) with v
      by (pose proof (split_high_low v); lia).
    unfold as_signed. change (2 ^ (16 - 1)) with 32768.
    change (2 ^ 16) with 65536.
    destruct (v <? 32768) eqn:Hlt;
      [apply Z.ltb_lt in Hlt | apply Z.ltb_ge in Hlt].
    + now replace (v <=? 32767) with true by (symmetry; apply Z.leb_le; lia).
    + now replace (v <=? 32767) with false
        by (symmetry; apply Z.leb_gt; lia).
Qed.

Lemma speed_read_back_witness :
  (forall target tr',
     0x01 <= target <= 0x60 ->
     snd (set_speed (session_on (echo_bus x80)) target 32896 tr') =
       tr' ++ [EvWrite 0x0a target [int_of_byte x80; int_of_byte x80]]) /\
  fst (read_speed (session_on (echo_bus x80)) 0x45 []) = Ret (Some (-32640)).
Proof.
  apply (speed_read_back (session_on (echo_bus x80)) (echo_bus x80) 0x0a
           0x45 [] 32896 x80 x80).
  - split; reflexivity.
  - lia.
  - lia.
  - reflexivity.
  - reflexivity.
  - reflexivity.
Defined.

Lemma le_unsigned_little_endian_4 v b0 b1 b2 b3 :
  0 <= v <= 4294967295 ->
  map int_of_byte [b0; b1; b2; b3] = little_endian_4 v ->
  le_unsigned [b0; b1; b2; b3] = v.
Proof.
  intros Hv Hb. unfold little_endian_4 in Hb. cbn [map] in Hb.
  pose proof (f_equal (fun l => nth 0 l 0) Hb) as H0.
  pose proof (f_equal (fun l => nth 1 l 0) Hb) as H1.
  pose proof (f_equal (fun l => nth 2 l 0) Hb) as H2.
  pose proof (f_equal (fun l => nth 3 l 0) Hb) as H3.
  cbn [nth] in H0, H1, H2, H3. clear Hb. cbn [le_unsigned].
  rewrite H0, H1, H2, H3.
  change 255 with (Z.ones 8).
  rewrite !Z.land_ones, !Z.shiftr_div_pow2 by lia.
  change (2 ^ 8) with 256.
  change (2 ^ 16) with (256 * 256).
  change (2 ^ 24) with (256 * 256 * 256).
  rewrite <- !Z.div_div by lia.
  pose proof (Z.div_mod v 256 ltac:(lia)) as E0.
  pose proof (Z.div_mod (v / 256) 256 ltac:(lia)) as E1.
  pose proof (Z.div_mod (v / 256 / 256) 256 ltac:(lia)) as E2.
  pose proof (Z.mod_pos_bound v 256 ltac:(lia)).
  pose proof (Z.mod_pos_bound (v / 256) 256 ltac:(lia)).
  pose proof (Z.mod_pos_bound (v / 256 / 256) 256 ltac:(lia)).
  assert (Hq : 0 <= v / 256 / 256 / 256 < 256).
  { rewrite !Z.div_div by lia. split; [apply Z.div_pos; lia|].
    apply Z.div_lt_upper_bound; lia. }
  rewrite (Z.mod_small (v / 256 / 256 / 256) 256 Hq).
  pose proof (Z.div_mod (v / 256 / 256) 256 ltac:(lia)).
  lia.
Qed.

(** X14. Position write and read do not agree on the sign either. For
    [0 <= v <= 4294967295] the payload of [set_position] is the four
    little-endian bytes of [v]; if the device answers a position read with
    these four bytes, [read_position] returns [v] only up to 2147483647, and
    [v - 4294967296] for a larger value. *)
Theorem position_read_back
    (self : PoStep256) (bus : Bus) (addr : Z) (tr : list event) (v : Z)
    (b0 b1 b2 b3 : byte) :
  functional self bus addr ->
  0 <= v <= 4294967295 ->
  map int_of_byte [b0; b1; b2; b3]
    = pad_to_four (rev (convert_to_byte_buffer v)) ->
  bus_write bus tr addr 0x40 [] = true ->
  bus_read bus (tr ++ [EvWrite addr 0x40 []]) addr 0x40 4
    = Some [b0; b1; b2; b3] ->
  fst (read_position self tr) =
    Ret (Some (if v <=? 2147483647 then v else v - 4294967296)).
Proof.
  intros Hf Hv Hbytes Hw Hrep.
  rewrite little_endian_4_of_buffer in Hbytes by assumption.
  rewrite (read_position_four_bytes _ _ _ _ _ _ _ _ Hf Hw Hrep).
  rewrite (le_unsigned_little_endian_4 v) by assumption.
  unfold as_signed. change (2 ^ (32 - 1)) with 2147483648.
  change (2 ^ 32) with 4294967296.
  destruct (v <? 2147483648) eqn:Hlt;
    [apply Z.ltb_lt in Hlt | apply Z.ltb_ge in Hlt].
  - now replace (v <=? 2147483647) with true
      by (symmetry; apply Z.leb_le; lia).
  - now replace (v <=? 2147483647) with false
      by (symmetry; apply Z.leb_gt; lia).
Qed.

Lemma position_read_back_witness :
  fst (read_position (session_on (echo_bus xff)) []) = Ret (Some (-1)).
Proof.
  apply (position_read_back (session_on (echo_bus xff)) (echo_bus xff) 0x0a
           [] 4294967295 xff xff xff xff).
  - split; reflexivity.
  - lia.
  - reflexivity.
  - reflexivity.
  - reflexivity.
Defined.

(** X15. The reads that scale their reply have no failure result once the
    register is selected: when the read that follows a successful select
    fails, [read_voltage], [read_temperature] and [read_current] raise
    [TypeError]; [read_current] raises [IndexError] on a reply shorter than
    two bytes. When the select write itself fails they return [None]
    without reading. *)
Theorem scaled_reads_outcomes
    (self : PoStep256) (bus : Bus) (addr : Z) (tr : list event) :
  functional self bus addr ->
  (forall register,
     0x01 <= register <= 0x60 ->
     let tr1 := tr ++ [EvWrite addr register []] in
     (bus_write bus tr addr register [] = false ->
      read_current self register tr = (Ret None, tr1)) /\
     (bus_write bus tr addr register [] = true ->
      (bus_read bus tr1 addr register 2 = None ->
       fst (read_current self register tr) = Raise TypeError) /\
      (forall reply,
         bus_read bus tr1 addr register 2 = Some reply ->
         (length reply < 2)%nat ->
         fst (read_current self register tr) = Raise IndexError))) /\
  (bus_write bus tr addr 0x10 [] = false ->
   read_voltage self tr = (Ret None, tr ++ [EvWrite addr 0x10 []])) /\
  (bus_write bus tr addr 0x10 [] = true ->
   bus_read bus (tr ++ [EvWrite addr 0x10 []]) addr 0x10 2 = None ->
   fst (read_voltage self tr) = Raise TypeError) /\
  (bus_write bus tr addr 0x11 [] = false ->
   read_temperature self tr = (Ret None, tr ++ [EvWrite addr 0x11 []])) /\
  (bus_write bus tr addr 0x11 [] = true ->
   bus_read bus (tr ++ [EvWrite addr 0x11 []]) addr 0x11 2 = None ->
   fst (read_temperature self tr) = Raise TypeError).
Proof.
  intros Hf. split; [|split; [|split; [|split]]].
  - intros register Hr tr1. subst tr1. unfold read_current, bind.
    rewrite (write_data_live _ _ _ _ _ _ Hf Hr). cbn [arg_list].
    split; intros Hw; rewrite Hw; cbn [negb]; [reflexivity|].
    rewrite (read_data_live _ _ _ _ _ _ Hf Hr) by lia. split.
    + now intros ->.
    + intros reply -> Hlen. unfold subscript.
      destruct reply as [|c0 [|c1 rest]]; cbn in *; try reflexivity. lia.
  - intros Hw. unfold read_voltage, bind.
    rewrite (write_data_live _ _ _ _ _ _ Hf) by lia. cbn [arg_list].
    now rewrite Hw.
  - intros Hw Hr. unfold read_voltage, bind.
    rewrite (write_data_live _ _ _ _ _ _ Hf) by lia. cbn [arg_list].
    rewrite Hw. cbn [negb].
    rewrite (read_data_live _ _ _ _ _ _ Hf) by lia. now rewrite Hr.
  - intros Hw. unfold read_temperature, bind.
    rewrite (write_data_live _ _ _ _ _ _ Hf) by lia. cbn [arg_list].
    now rewrite Hw.
  - intros Hw Hr. unfold read_temperature, bind.
    rewrite (write_data_live _ _ _ _ _ _ Hf) by lia. cbn [arg_list].
    rewrite Hw. cbn [negb].
    rewrite (read_data_live _ _ _ _ _ _ Hf) by lia. now rewrite Hr.
Qed.

Lemma scaled_reads_outcomes_witness :
  fst (read_current (session_on mute_bus) 0x20 []) = Raise TypeError /\
  fst (read_voltage (session_on mute_bus) []) = Raise TypeError /\
  read_temperature (session_on silent_bus) [] =
    (Ret None, [] ++ [EvWrite 0x0a 0x11 []]).
Proof.
  destruct (scaled_reads_outcomes (session_on mute_bus) mute_bus 0x0a []
              (conj eq_refl eq_refl)) as (Hcur & _ & Hvolt & _ & _).
  destruct (scaled_reads_outcomes (session_on silent_bus) silent_bus 0x0a []
              (conj eq_refl eq_refl)) as (_ & _ & _ & Htemp & _).
  split; [|split].
  - destruct (Hcur 0x20 ltac:(lia)) as [_ H].
    apply (proj1 (H eq_refl)). reflexivity.
  - apply Hvolt; reflexivity.
  - apply Htemp. reflexivity.
Defined.

(* ------------------------------------------------------------------------- *)
(** ** The speed helper beyond 16 bits, the halving loop in general           *)
(* ------------------------------------------------------------------------- *)

(** X16. [set_speed] beyond 16 bits: a value above 4294967295 is answered
    [False] with no bus call (the buffer is empty); a value in
    [65536..4294967295] is sent as two bytes taken from its upper half
    only, [[h & 0xFF, h >> 8]] with [h = v >> 16], so the low 16 bits of the
    value never reach the device. *)
Theorem set_speed_beyond_16_bits
    (self : PoStep256) (bus : Bus) (addr : Z) (register : Z)
    (tr : list event) (v : Z) :
  functional self bus addr ->
  0x01 <= register <= 0x60 ->
  (v > 4294967295 -> set_speed self register v tr = (Ret false, tr)) /\
  (65536 <= v <= 4294967295 ->
   let h := Z.shiftr v 16 in
   snd (set_speed self register v tr) =
     tr ++ [EvWrite addr register [Z.land h 0xff; Z.shiftr h 8]]).
Proof.
  intros Hf Hr. unfold set_speed, convert_to_byte_buffer. split; intros Hv.
  - replace (v <=? 255) with false by (symmetry; apply Z.leb_gt; lia).
    replace (v <=? 65535) with false by (symmetry; apply Z.leb_gt; lia).
    replace (v <=? 4294967295) with false by (symmetry; apply Z.leb_gt; lia).
    reflexivity.
  - replace (v <=? 255) with false by (symmetry; apply Z.leb_gt; lia).
    replace (v <=? 65535) with false by (symmetry; apply Z.leb_gt; lia).
    replace (v <=? 4294967295) with true by (symmetry; apply Z.leb_le; lia).
    cbv zeta. rewrite (write_data_live _ _ _ _ _ _ Hf Hr).
    cbn [snd arg_list]. change (8 * 2) with 16. change (8 * 3) with 24.
    rewrite Z.shiftr_land. change (Z.shiftr 16777215 16) with 255.
    rewrite Z.shiftr_shiftr by lia. reflexivity.
Qed.

Lemma set_speed_beyond_16_bits_witness :
  set_speed (session_on (echo_bus x06)) 0x51 4294967296 [] = (Ret false, []) /\
  snd (set_speed (session_on (echo_bus x06)) 0x51 0x0102ffff []) =
    [] ++ [EvWrite 0x0a 0x51 [2; 1]].
Proof.
  assert (Hf : functional (session_on (echo_bus x06)) (echo_bus x06) 0x0a)
    by (split; reflexivity).
  split.
  - apply (proj1 (set_speed_beyond_16_bits _ _ _ 0x51 [] 4294967296 Hf
                    ltac:(lia))). lia.
  - apply (proj2 (set_speed_beyond_16_bits _ _ _ 0x51 [] 0x0102ffff Hf
                    ltac:(lia))). lia.
Defined.

(** X17. The halving loop of [set_current], for any start value [tq] and
    exponent [ai]: a value of at most 255 (negative ones included) is left
    as it is. A larger value is shifted right [k >= 1] times and the
    exponent lowered by [k]; the mantissa then lies in [128..255], the
    start value lies in [[m * 2^k, (m + 1) * 2^k)], and [k] exceeds every
    [j] with [tq >= 2^(8 + j)] (so from 2048 on, a start exponent of 3 ends
    below zero). *)
Theorem halve_until_byte_quantizes (tq ai : Z) :
  (tq <= 255 -> halve_until_byte tq ai = (tq, ai)) /\
  (255 < tq ->
   exists k,
     1 <= k /\
     halve_until_byte tq ai = (Z.shiftr tq k, ai - k) /\
     128 <= Z.shiftr tq k <= 255 /\
     Z.shiftr tq k * 2 ^ k <= tq < (Z.shiftr tq k + 1) * 2 ^ k /\
     (forall j, 0 <= j -> 2 ^ (8 + j) <= tq -> j < k)).
Proof.
  destruct (halve_until_byte_shift tq ai) as (k & Hk & Hres & Hle & Hmin).
  split; intros Htq.
  - destruct (Z.eq_dec k 0) as [->|Hne].
    + rewrite Hres, Z.shiftr_0_r, Z.sub_0_r. reflexivity.
    + specialize (Hmin 0 ltac:(lia)). rewrite Z.shiftr_0_r in Hmin. lia.
  - assert (Hk1 : 1 <= k).
    { destruct (Z.eq_dec k 0) as [->|Hne]; [|lia].
      rewrite Z.shiftr_0_r in Hle. lia. }
    exists k. split; [assumption|]. split; [assumption|].
    assert (Hp : 0 < 2 ^ k) by (apply Z.pow_pos_nonneg; lia).
    split; [|split].
    + split; [|assumption].
      specialize (Hmin (k - 1) ltac:(lia)).
      replace k with ((k - 1) + 1) by lia.
      rewrite <- Z.shiftr_shiftr by lia.
      rewrite (Z.shiftr_div_pow2 _ 1) by lia. change (2 ^ 1) with 2.
      apply Z.div_le_lower_bound; lia.
    + rewrite Z.shiftr_div_pow2 by lia.
      pose proof (Z.div_mod tq (2 ^ k) ltac:(lia)) as Hd.
      pose proof (Z.mod_pos_bound tq (2 ^ k) Hp) as Hm.
      revert Hd Hm. generalize (tq / 2 ^ k), (tq mod 2 ^ k), (2 ^ k).
      intros q r p Hd Hm. nia.
    + intros j Hj Hbig.
      destruct (Z_lt_ge_dec j k) as [|Hge]; [assumption|].
      exfalso.
      rewrite Z.shiftr_div_pow2 in Hle by lia.
      assert (Hlt : tq < 256 * 2 ^ k).
      { apply Z.lt_succ_r in Hle.
        pose proof (Z.div_mod tq (2 ^ k) ltac:(lia)) as Hd.
        pose proof (Z.mod_pos_bound tq (2 ^ k) Hp) as Hm.
        revert Hle Hd Hm. generalize (tq / 2 ^ k), (tq mod 2 ^ k), (2 ^ k).
        intros q r p Hle Hd Hm. nia. }
      assert (Hmono : 2 ^ k <= 2 ^ j) by (apply Z.pow_le_mono_r; lia).
      rewrite Z.pow_add_r in Hbig by lia. change (2 ^ 8) with 256 in Hbig.
      nia.
Qed.

(* ------------------------------------------------------------------------- *)
(** ** Construction                                                           *)
(* ------------------------------------------------------------------------- *)

Lemma loopback_read_live self bus addr tr :
  functional self bus addr ->
  snd (loopback_read self tr) =
    if bus_write bus tr addr 0x01 PROBE
    then tr ++ [EvWrite addr 0x01 PROBE; EvRead addr 0x01 5]
    else tr ++ [EvWrite addr 0x01 PROBE].
Proof.
  intros Hf. unfold loopback_read, try_except, bind.
  rewrite (write_data_live _ _ _ _ _ _ Hf) by lia.
  cbn [arg_list]. fold PROBE.
  destruct (bus_write bus tr addr 1 PROBE); cbn [negb]; [|reflexivity].
  change (Z.of_nat (length PROBE) + 1) with 5.
  rewrite (read_data_live _ _ _ _ _ _ Hf) by lia.
  rewrite <- app_assoc. cbn [app].
  destruct (bus_read bus _ addr 1 5) as [reply|]; [|reflexivity].
  now destruct (list_eq_dec Z.eq_dec (map int_of_byte (tl reply)) PROBE).
Qed.

(** X18. The constructor keeps the bus handle exactly when the bus opens
    and the self-test it runs answers [True]; the session then carries the
    given address and the construction has made two bus calls, the probe
    write and the 5-byte read on register [0x01]. When the bus does not
    open, no bus call is made and the address is not recorded either. *)
Theorem construction_outcome
    (smbus_SMBus : Z -> option Bus) (address : Z) (tr : list event) :
  exists self tr1,
    __init__ smbus_SMBus address tr = (Ret self, tr1) /\
    (i2c_bus self <> None <->
     exists bus,
       smbus_SMBus I2C_CHANNEL = Some bus /\
       fst (loopback_read (under_construction bus address) tr) = Ret true) /\
    (i2c_bus self <> None ->
     i2c_bus self = smbus_SMBus I2C_CHANNEL /\
     i2c_address self = Some address /\
     tr1 = tr ++ [EvWrite address 0x01 PROBE; EvRead address 0x01 5]) /\
    (smbus_SMBus I2C_CHANNEL = None ->
     tr1 = tr /\ i2c_address self = None).
Proof.
  unfold __init__, try_except.
  destruct (smbus_SMBus I2C_CHANNEL) as [bus|] eqn:Hopen.
  - unfold bind. fold (under_construction bus address).
    assert (Hf : functional (under_construction bus address) bus address)
      by (split; reflexivity).
    pose proof (loopback_read_live _ _ _ tr Hf) as Htr.
    destruct (loopback_read (under_construction bus address) tr)
      as [[[|]|e] tr1] eqn:Hloop; cbn [snd] in Htr.
    + exists (under_construction bus address), tr1.
      split; [reflexivity|]. split; [|split].
      * split; [|intros _; discriminate]. intros _. exists bus.
        split; [congruence|]. now rewrite Hloop.
      * intros _. split; [reflexivity|]. split; [reflexivity|].
        destruct (bus_write bus tr address 1 PROBE) eqn:Hw; [assumption|].
        exfalso.
        unfold loopback_read, try_except, bind in Hloop.
        rewrite (write_data_live _ _ _ _ _ _ Hf) in Hloop by lia.
        cbn [arg_list] in Hloop. fold PROBE in Hloop. rewrite Hw in Hloop.
        discriminate Hloop.
      * discriminate.
    + eexists _, tr1. split; [reflexivity|]. cbn [i2c_bus]. split; [|split].
      * split; [congruence|].
        intros (bus' & Hb' & Hl'). assert (bus' = bus) by congruence. subst.
        rewrite Hloop in Hl'. discriminate Hl'.
      * congruence.
      * discriminate.
    + destruct e; eexists _, tr1; (split; [reflexivity|]); cbn [i2c_bus];
        (split; [|split]);
        try (intros Hcontra; congruence); try discriminate;
        (split; [congruence|]);
        intros (bus' & Hb' & Hl'); assert (bus' = bus) by congruence; subst;
        rewrite Hloop in Hl'; discriminate Hl'.
  - eexists _, tr. split; [reflexivity|]. cbn [i2c_bus i2c_address].
    split; [|split].
    + split; [congruence|]. intros (bus' & Hb' & _). discriminate Hb'.
    + congruence.
    + intros _. now split.
Qed.

(* ------------------------------------------------------------------------- *)
(** ** Bus traffic of a call: how much, and where to                          *)
(* ------------------------------------------------------------------------- *)

Section Traffic.
Variable self : PoStep256.

Lemma appends_ret {A} (a : A) n : appends_at_most self n (ret a).
Proof.
  intros tr. exists []. rewrite app_nil_r.
  split; [reflexivity|]. split; [cbn; lia | constructor].
Qed.

Lemma appends_raise {A} (e : exn) n : appends_at_most self n (@raise A e).
Proof.
  intros tr. exists []. rewrite app_nil_r.
  split; [reflexivity|]. split; [cbn; lia | constructor].
Qed.

Lemma appends_lift {A} (o : outcome A) n : appends_at_most self n (lift o).
Proof.
  intros tr. exists []. rewrite app_nil_r.
  split; [reflexivity|]. split; [cbn; lia | constructor].
Qed.

Lemma appends_bind {A B} (a b n : nat) (m : M A) (f : A -> M B) :
  (a + b <= n)%nat ->
  appends_at_most self a m ->
  (forall x, appends_at_most self b (f x)) ->
  appends_at_most self n (bind m f).
Proof.
  intros Hn Hm Hf tr. destruct (Hm tr) as (s1 & E1 & L1 & F1).
  unfold bind. destruct (m tr) as [[x|e] tr']; cbn [snd] in E1; subst tr'.
  - destruct (Hf x (tr ++ s1)) as (s2 & E2 & L2 & F2).
    exists (s1 ++ s2). rewrite E2, app_assoc.
    split; [reflexivity|]. split; [rewrite length_app; lia|].
    apply Forall_app. now split.
  - exists s1. split; [reflexivity|]. split; [lia | assumption].
Qed.

Lemma appends_try {A} (a b n : nat) (m : M A) (h : exn -> M A) :
  (a + b <= n)%nat ->
  appends_at_most self a m ->
  (forall e, appends_at_most self b (h e)) ->
  appends_at_most self n (try_except m h).
Proof.
  intros Hn Hm Hh tr. destruct (Hm tr) as (s1 & E1 & L1 & F1).
  unfold try_except.
  destruct (m tr) as [[x|e] tr']; cbn [snd] in E1; subst tr'.
  - exists s1. split; [reflexivity|]. split; [lia | assumption].
  - destruct (Hh e (tr ++ s1)) as (s2 & E2 & L2 & F2).
    exists (s1 ++ s2). rewrite E2, app_assoc.
    split; [reflexivity|]. split; [rewrite length_app; lia|].
    apply Forall_app. now split.
Qed.

Lemma appends_write_data register buffer n :
  appends_at_most self (S n) (write_data self register buffer).
Proof.
  intros tr.
  unfold write_data, try_except, bind, write_i2c_block_data, ret.
  destruct ((register <? 1) || (register >? 96)) eqn:Hg.
  { exists []. rewrite app_nil_r.
    split; [reflexivity|]. split; [cbn; lia | constructor]. }
  apply orb_false_iff in Hg. destruct Hg as [Hlo Hhi].
  apply Z.ltb_ge in Hlo. assert (Hhi' : register <= 96) by lia.
  destruct (i2c_bus self) as [bus|];
    [destruct (i2c_address self) as [addr|] eqn:Ha|].
  - eexists [_].
    split;
      [destruct (bus_write bus tr addr register _); reflexivity|].
    split; [cbn; lia|]. repeat constructor; cbn; (assumption || lia).
  - exists []. rewrite app_nil_r.
    split; [reflexivity|]. split; [cbn; lia | constructor].
  - exists []. rewrite app_nil_r.
    split; [reflexivity|]. split; [cbn; lia | constructor].
Qed.

Lemma appends_read_data register length n :
  appends_at_most self (S n) (read_data self register length).
Proof.
  intros tr.
  unfold read_data, try_except, bind, read_i2c_block_data, ret.
  destruct ((register <? 1) || (register >? 96)) eqn:Hg.
  { exists []. rewrite app_nil_r.
    split; [reflexivity|]. split; [cbn; lia | constructor]. }
  destruct ((length <? 1) || (length >? MAX_BUFFER_LENGTH)) eqn:Hl.
  { exists []. rewrite app_nil_r.
    split; [reflexivity|]. split; [cbn; lia | constructor]. }
  unfold MAX_BUFFER_LENGTH in Hl.
  apply orb_false_iff in Hg, Hl. destruct Hg as [Hg1 Hg2], Hl as [Hl1 Hl2].
  apply Z.ltb_ge in Hg1, Hl1.
  assert (register <= 96 /\ length <= 5) as [Hg3 Hl3] by lia.
  replace (length =? 0) with false by (symmetry; apply Z.eqb_neq; lia).
  cbn [negb].
  destruct (i2c_bus self) as [bus|];
    [destruct (i2c_address self) as [addr|] eqn:Ha|].
  - eexists [_].
    split;
      [destruct (bus_read bus tr addr register length); reflexivity|].
    split; [cbn; lia|].
    repeat constructor; cbn; unfold MAX_BUFFER_LENGTH; (assumption || lia).
  - exists []. rewrite app_nil_r.
    split; [reflexivity|]. split; [cbn; lia | constructor].
  - exists []. rewrite app_nil_r.
    split; [reflexivity|]. split; [cbn; lia | constructor].
Qed.
End Traffic.

(** Split the budget of a sequence between its two halves, trying every
    share for the first half. *)
Ltac traffic :=
  cbv zeta;
  lazymatch goal with
  | |- appends_at_most _ _ (ret _) => apply appends_ret
  | |- appends_at_most _ _ (raise _) => apply appends_raise
  | |- appends_at_most _ _ (lift _) => apply appends_lift
  | |- appends_at_most _ _ (write_data _ _ _) => apply appends_write_data
  | |- appends_at_most _ _ (read_data _ _ _) => apply appends_read_data
  | |- appends_at_most _ _ (read_driver_mode _) =>
      unfold read_driver_mode, read_value; traffic
  | |- appends_at_most _ ?n (bind _ _) =>
      first
        [ apply (appends_bind _ 0 n n); [cbn; lia | traffic | intros; traffic]
        | apply (appends_bind _ 1 (n - 1) n);
            [cbn; lia | traffic | intros; traffic]
        | apply (appends_bind _ 2 (n - 2) n);
            [cbn; lia | traffic | intros; traffic]
        | apply (appends_bind _ 3 (n - 3) n);
            [cbn; lia | traffic | intros; traffic] ]
  | |- appends_at_most _ ?n (try_except _ _) =>
      apply (appends_try _ n 0 n); [cbn; lia | traffic | intros; traffic]
  | |- appends_at_most _ _ (if ?c then _ else _) => destruct c; traffic
  | |- appends_at_most _ _ (match ?x with _ => _ end) => destruct x; traffic
  end.

(** X19. Whatever the session and the bus, a call of any operation only
    appends to the trace, at most three bus calls, each of them to the
    address held by the session, on a register in [0x01..0x60], and for a
    read with a length in [1..5]. *)
Theorem every_operation_traffic_bounded
    (self : PoStep256) (op : operation) :
  appends_at_most self 3 (call self op).
Proof.
  destruct op; cbn [call];
    unfold of_bool, of_int, of_opt_int, of_opt_float, of_opt_bytes,
      loopback_read, set_run_sleep_mode, set_address, set_driver_mode,
      set_pwm_motors, read_hw_fw_info, read_voltage, read_temperature,
      read_pin_statuses, read_driver_status, read_driver_mode,
      read_current_full_scale, read_current_idle, read_current_overheat,
      read_step_mode, read_temperature_limit, read_faults,
      set_current_full_scale, set_current_idle, set_current_overheat,
      set_step_mode, set_temperature_limit, reset_faults,
      write_settings_to_eeprom, read_position, read_max_speed,
      read_acceleration, read_deceleration, read_current_speed,
      read_requested_speed, read_auto_run_invert_direction_status,
      set_position, set_max_speed, set_acceleration, set_deceleration,
      set_requested_speed, set_invert_direction, set_zero, stop,
      system_reset, read_current, set_current, read_speed, set_speed,
      read_value, unpack_reply, subscript;
    traffic.
Qed.

(* ------------------------------------------------------------------------- *)
(** ** Commands that never raise                                              *)
(* ------------------------------------------------------------------------- *)

Lemma returns_ret {A} (a : A) : always_returns (ret a).
Proof. intros tr. now exists a. Qed.

Lemma returns_bind {A B} (m : M A) (f : A -> M B) :
  always_returns m -> (forall x, always_returns (f x)) ->
  always_returns (bind m f).
Proof.
  intros Hm Hf tr. unfold bind. destruct (Hm tr) as [a Ha].
  destruct (m tr) as [[x|e] tr']; cbn [fst] in Ha; [|discriminate Ha].
  apply Hf.
Qed.

Lemma returns_try {A} (m : M A) (h : exn -> M A) :
  (forall e, always_returns (h e)) -> always_returns (try_except m h).
Proof.
  intros Hh tr. unfold try_except.
  destruct (m tr) as [[x|e] tr']; [now exists x | apply Hh].
Qed.

Ltac returning :=
  cbv zeta;
  lazymatch goal with
  | |- always_returns (ret _) => apply returns_ret
  | |- always_returns (bind _ _) =>
      apply returns_bind; [returning | intros; returning]
  | |- always_returns (try_except _ _) =>
      apply returns_try; intros; returning
  | |- always_returns (if ?c then _ else _) => destruct c; returning
  | |- always_returns (match ?x with _ => _ end) => destruct x; returning
  end.

(** X20. The write-only setters and actions, the self-test and the two
    block-transfer methods never raise: on every session, with every bus
    behaviour and from every history, they come back with a value, every
    failure of the bus being turned into [False] or [None]. *)
Theorem listed_operations_never_raise
    (self : PoStep256) (op : operation) (tr : list event) :
  answers_without_raising op = true ->
  exists v, fst (call self op tr) = Ret v.
Proof.
  intros Hop. revert tr. change (always_returns (call self op)).
  destruct op; cbn [answers_without_raising] in Hop; try discriminate Hop;
    cbn [call];
    unfold of_bool, of_opt_bytes, loopback_read, set_run_sleep_mode,
      set_address, set_driver_mode, set_pwm_motors, read_hw_fw_info,
      set_step_mode, set_temperature_limit, reset_faults,
      write_settings_to_eeprom, set_max_speed, set_acceleration,
      set_deceleration, set_zero, stop, system_reset, set_speed,
      write_data, read_data;
    returning.
Qed.

Lemma listed_operations_never_raise_witness :
  exists v,
    fst (call (session_on mute_bus) (Op_set_driver_mode MODE_AUTO) []) = Ret v.
Proof.
  apply (listed_operations_never_raise (session_on mute_bus)
           (Op_set_driver_mode MODE_AUTO) []).
  reflexivity.
Defined.

(** X21. After the destructor the session has no bus handle: it keeps its
    address, and every later operation other than [read_step_mode],
    [set_address] between equal addresses and a current setter whose value
    has no integer image returns [False] or [None] without any bus call. *)
Theorem after_destructor_no_traffic
    (self : PoStep256) (op : operation) (tr : list event) :
  not_failing_fast op = false ->
  i2c_address (__del__ self) = i2c_address self /\
  exists v,
    call (__del__ self) op tr = (Ret v, tr) /\ is_failure v = true.
Proof.
  intros Hop. split; [reflexivity|].
  apply call_dead; [reflexivity | assumption].
Qed.

Lemma after_destructor_no_traffic_witness :
  i2c_address (__del__ (session_on (echo_bus x06))) = Some 0x0a /\
  exists v,
    call (__del__ (session_on (echo_bus x06))) Op_stop [] = (Ret v, []) /\
    is_failure v = true.
Proof.
  apply (after_destructor_no_traffic (session_on (echo_bus x06)) Op_stop []).
  reflexivity.
Defined.

(* ------------------------------------------------------------------------- *)
(** ** The encoded current grows with the value; the address change           *)
(* ------------------------------------------------------------------------- *)

Lemma shiftr_floor_bounds tq k :
  0 <= k ->
  Z.shiftr tq k * 2 ^ k <= tq < (Z.shiftr tq k + 1) * 2 ^ k.
Proof.
  intros Hk. rewrite Z.shiftr_div_pow2 by lia.
  assert (Hp : 0 < 2 ^ k) by (apply Z.pow_pos_nonneg; lia).
  pose proof (Z.div_mod tq (2 ^ k) ltac:(lia)) as Hd.
  pose proof (Z.mod_pos_bound tq (2 ^ k) Hp) as Hm.
  revert Hd Hm. generalize (tq / 2 ^ k), (tq mod 2 ^ k), (2 ^ k).
  intros q r p Hd Hm. nia.
Qed.

(** X22. The halving loop is monotone: of two start values
    [0 <= tq <= tq'] (same start exponent), the larger one never ends with
    a higher exponent, and what the pair stands for, mantissa times
    [2^(halvings)], is never smaller for the larger value. *)
Theorem halve_until_byte_monotone (tq tq' ai : Z) :
  0 <= tq <= tq' ->
  let r := halve_until_byte tq ai in
  let r' := halve_until_byte tq' ai in
  snd r' <= snd r /\
  fst r * 2 ^ (ai - snd r) <= fst r' * 2 ^ (ai - snd r').
Proof.
  intros Htq r r'. subst r r'.
  destruct (halve_until_byte_shift tq ai) as (k & Hk & Hres & Hle & Hmin).
  destruct (halve_until_byte_shift tq' ai)
    as (k' & Hk' & Hres' & Hle' & Hmin').
  rewrite Hres, Hres'. cbn [fst snd].
  replace (ai - (ai - k)) with k by lia.
  replace (ai - (ai - k')) with k' by lia.
  assert (Hkk : k <= k').
  { destruct (Z_le_gt_dec k k') as [|Hgt]; [assumption|]. exfalso.
    specialize (Hmin k' ltac:(lia)).
    rewrite Z.shiftr_div_pow2 in Hmin, Hle' by lia.
    assert (tq / 2 ^ k' <= tq' / 2 ^ k').
    { apply Z.div_le_mono; [apply Z.pow_pos_nonneg; lia | lia]. }
    lia. }
  split; [lia|].
  pose proof (shiftr_floor_bounds tq k Hk) as Hb.
  pose proof (shiftr_floor_bounds tq' k' Hk') as Hb'.
  destruct (Z.eq_dec k k') as [<-|Hne].
  - assert (Hp : 0 < 2 ^ k) by (apply Z.pow_pos_nonneg; lia).
    rewrite !Z.shiftr_div_pow2 by lia.
    apply Z.mul_le_mono_nonneg_r; [lia|].
    apply Z.div_le_mono; lia.
  - specialize (Hmin' (k' - 1) ltac:(lia)).
    pose proof (shiftr_floor_bounds tq' (k' - 1) ltac:(lia)) as Hc.
    assert (Hpk : 0 < 2 ^ k) by (apply Z.pow_pos_nonneg; lia).
    assert (Hmono : 2 ^ k <= 2 ^ (k' - 1)) by (apply Z.pow_le_mono_r; lia).
    assert (Hstep : 2 ^ k' = 2 * 2 ^ (k' - 1)).
    { replace k' with (1 + (k' - 1)) at 1 by lia.
      rewrite Z.pow_add_r by lia. reflexivity. }
    assert (Hlow : Z.shiftr tq k * 2 ^ k <= 255 * 2 ^ k)
      by (apply Z.mul_le_mono_nonneg_r; lia).
    assert (Hhigh : 256 * 2 ^ (k' - 1) <= tq') by nia.
    assert (Hfl : tq' < Z.shiftr tq' k' * 2 ^ k' + 2 ^ k') by lia.
    (* the floor of tq' at step 2^k' is a multiple of 2^k' above 255 * 2^k *)
    destruct (Z_le_gt_dec 128 (Z.shiftr tq' k')) as [H128|H128]; [nia|].
    exfalso. nia.
Qed.

Lemma halve_until_byte_monotone_witness :
  snd (halve_until_byte 738 3) <= snd (halve_until_byte 255 3) /\
  fst (halve_until_byte 255 3) * 2 ^ (3 - snd (halve_until_byte 255 3))
  <= fst (halve_until_byte 738 3) * 2 ^ (3 - snd (halve_until_byte 738 3)).
Proof. apply (halve_until_byte_monotone 255 738 3). lia. Defined.

(** X23. A valid address change (two different addresses in
    [0x01..0x7F]) is one write of [[cur, new]] to register [0x04], sent to
    the address the session holds, whatever [cur] is; the session does not
    take over the new address, so the next command still goes to the old
    one. *)
Theorem set_address_keeps_session_address
    (self : PoStep256) (bus : Bus) (addr : Z) (tr : list event)
    (cur new : Z) :
  functional self bus addr ->
  cur <> new ->
  0x01 <= cur <= 0x7f ->
  0x01 <= new <= 0x7f ->
  set_address self cur new tr =
    (Ret (bus_write bus tr addr 0x04 [cur; new]),
     tr ++ [EvWrite addr 0x04 [cur; new]]) /\
  snd (stop self (snd (set_address self cur new tr))) =
    tr ++ [EvWrite addr 0x04 [cur; new]; EvWrite addr 0x5f []].
Proof.
  intros Hf Hne Hc Hn.
  assert (Hset : set_address self cur new tr =
            (Ret (bus_write bus tr addr 0x04 [cur; new]),
             tr ++ [EvWrite addr 0x04 [cur; new]])).
  { unfold set_address.
    replace (cur =? new) with false by (symmetry; now apply Z.eqb_neq).
    replace ((cur <? 1) || (cur >? 127)) with false
      by (symmetry; apply orb_false_iff; lia).
    replace ((new <? 1) || (new >? 127)) with false
      by (symmetry; apply orb_false_iff; lia).
    now rewrite (write_data_live _ _ _ _ _ _ Hf) by lia. }
  split; [exact Hset|].
  rewrite Hset. cbn [snd]. unfold stop.
  rewrite (write_data_live _ _ _ _ _ _ Hf) by lia.
  cbn [snd arg_list]. now rewrite <- app_assoc.
Qed.

Lemma set_address_keeps_session_address_witness :
  set_address (session_on (echo_bus x06)) 0x0a 0x0b [] =
    (Ret (bus_write (echo_bus x06) [] 0x0a 0x04 [0x0a; 0x0b]),
     [] ++ [EvWrite 0x0a 0x04 [0x0a; 0x0b]]) /\
  snd (stop (session_on (echo_bus x06))
         (snd (set_address (session_on (echo_bus x06)) 0x0a 0x0b []))) =
    [] ++ [EvWrite 0x0a 0x04 [0x0a; 0x0b]; EvWrite 0x0a 0x5f []].
Proof.
  apply (set_address_keeps_session_address (session_on (echo_bus x06))
           (echo_bus x06) 0x0a [] 0x0a 0x0b).
  - split; reflexivity.
  - lia.
  - lia.
  - lia.
Defined.
